(** * The application service of formsflow_api

    A shallow embedding of [formsflow_api/services/application.py]:
    the creation path ([ApplicationService.create_application]), the
    memoised authorisation lookup ([get_authorised_form_list], an
    [lru_cache] of 32 entries), the read paths built on it, and the
    post-processing helper [ApplicationSchemaWrapper.apply_attributes].

    Python values are a small universe [pyval]; the service runs in a
    state-and-exception monad over the process state (dict objects held
    by callers, the application table, the LRU cache, and a trace of the
    calls made to the collaborators). *)

From Stdlib Require Import Ascii String DecimalString.
From stdpp Require Import base numbers strings list gmap.

Set Warnings "-register-all,-clear-no-such-hyp".
Open Scope Z_scope.

(** ** Python values *)

(** The members of [http.HTTPStatus] the module uses. *)
Inductive HTTPStatus := OK | BAD_REQUEST | FORBIDDEN | BAD_GATEWAY.

(** Exception classes.  [OtherError] stands for any class that is not
    [TypeError] (nor a subclass of it): connection errors, HTTP errors,
    [KeyboardInterrupt], ... *)
Inductive exc_class :=
| TypeError
| KeyError
| ValueError
| AttributeError
| BusinessException (status : HTTPStatus)
| OtherError (name : string).

Record exn := Exn { exc_type : exc_class; exc_arg : string }.

Inductive pyval :=
| PNone
| PBool (b : bool)
| PInt (z : Z)
| PStr (s : string)
| PList (l : list pyval)
| PTuple (l : list pyval)
| PDict (d : gmap string pyval)
| PStatus (s : HTTPStatus)
| PExc (e : exn).

(** The outcome of a call: a returned value or a raised exception. *)
Inductive res (A : Type) :=
| Ok (a : A)
| Raise (e : exn).
Arguments Ok {A} a.
Arguments Raise {A} e.

Definition res_bind {A B} (r : res A) (k : A → res B) : res B :=
  match r with
  | Ok a => k a
  | Raise e => Raise e
  end.

(** ** The builtins the module relies on *)
Module Py.

Definition status_code (s : HTTPStatus) : Z :=
  match s with
  | OK => 200
  | BAD_REQUEST => 400
  | FORBIDDEN => 403
  | BAD_GATEWAY => 502
  end.

(** [bool(v)], the test of [if v:]. *)
Definition truthy (v : pyval) : bool :=
  match v with
  | PNone => false
  | PBool b => b
  | PInt z => negb (z =? 0)
  | PStr s => negb (String.eqb s "")
  | PList l => match l with [] => false | _ => true end
  | PTuple l => match l with [] => false | _ => true end
  | PDict d => negb (bool_decide (d = ∅))
  | PStatus s => negb (status_code s =? 0)
  | PExc _ => true
  end.

(** [isinstance(e, TypeError)], the test of [except TypeError]. *)
Definition is_TypeError (e : exn) : bool :=
  match exc_type e with
  | TypeError => true
  | _ => false
  end.

(** *** [int(s)] on a string (ASCII fragment): surrounding white space
    is dropped, then an optional sign, then decimal digits in which
    single underscores may separate digits. *)
Definition is_space (c : ascii) : bool :=
  let n := Z.of_nat (nat_of_ascii c) in
  ((9 <=? n) && (n <=? 13)) || ((28 <=? n) && (n <=? 32)).

Definition digit_of (c : ascii) : option Z :=
  let n := Z.of_nat (nat_of_ascii c) in
  if (48 <=? n) && (n <=? 57) then Some (n - 48) else None.

Fixpoint lstrip (s : string) : string :=
  match s with
  | String c s' => if is_space c then lstrip s' else s
  | EmptyString => s
  end.

Definition strip (s : string) : string :=
  String.rev (lstrip (String.rev (lstrip s))).

(** [digits acc prev s]: [prev] tells whether the previous character was
    a digit; an underscore is only accepted after a digit, and the
    literal has to end with a digit. *)
Fixpoint digits (acc : Z) (prev : bool) (s : string) : option Z :=
  match s with
  | EmptyString => if prev then Some acc else None
  | String c s' =>
      match digit_of c with
      | Some d => digits (10 * acc + d) true s'
      | None =>
          if Ascii.eqb c "_"%char && prev then digits acc false s' else None
      end
  end.

Definition parse_int (s : string) : option Z :=
  match strip s with
  | String "-"%char s' => Z.opp <$> digits 0 false s'
  | String "+"%char s' => digits 0 false s'
  | s' => digits 0 false s'
  end.

(** [int(v)] *)
Definition int (v : pyval) : res pyval :=
  match v with
  | PInt z => Ok (PInt z)
  | PBool b => Ok (PInt (if b then 1 else 0))
  | PStatus s => Ok (PInt (status_code s))
  | PStr s =>
      match parse_int s with
      | Some z => Ok (PInt z)
      | None => Raise (Exn ValueError "invalid literal for int() with base 10")
      end
  | _ => Raise (Exn TypeError "int() argument must be a string, a bytes-like object or a real number")
  end.

Definition str_of_Z (z : Z) : string := NilZero.string_of_int (Z.to_int z).

(** [str(v)].  For containers, statuses and exceptions [str] is the
    [repr] of the object, which is left to the parameter [repr]. *)
Definition str (repr : pyval → string) (v : pyval) : pyval :=
  match v with
  | PStr s => PStr s
  | PInt z => PStr (str_of_Z z)
  | PBool b => PStr (if b then "True" else "False")
  | PNone => PStr "None"
  | _ => PStr (repr v)
  end.

(** [v[key]] for a string key. *)
Definition getitem (v : pyval) (key : string) : res pyval :=
  match v with
  | PDict d =>
      match d !! key with
      | Some x => Ok x
      | None => Raise (Exn KeyError key)
      end
  | PList _ | PTuple _ | PStr _ =>
      Raise (Exn TypeError "indices must be integers or slices, not str")
  | _ => Raise (Exn TypeError "object is not subscriptable")
  end.

Fixpoint chars (s : string) : list pyval :=
  match s with
  | EmptyString => []
  | String c s' => PStr (String c EmptyString) :: chars s'
  end.

(** The elements [for x in v] runs over.  A dict yields its keys. *)
Definition iter (v : pyval) : res (list pyval) :=
  match v with
  | PList l | PTuple l => Ok l
  | PDict d => Ok (PStr <$> (map_to_list d).*1)
  | PStr s => Ok (chars s)
  | _ => Raise (Exn TypeError "object is not iterable")
  end.

Definition len (s : string) : Z := Z.of_nat (String.length s).

(** [s.find(sub)]: the index of the first occurrence, or -1. *)
Definition find (s sub : string) : Z :=
  match String.index 0 sub s with
  | Some i => Z.of_nat i
  | None => -1
  end.

(** A slice bound: a negative bound counts from the end, and the
    outcome is clipped to [0, len(s)]. *)
Definition bound (n i : Z) : Z :=
  if i <? 0 then Z.max 0 (i + n) else Z.min i n.

(** [s[start:stop]] *)
Definition slice (s : string) (start stop : Z) : string :=
  let n := len s in
  let a := bound n start in
  let b := bound n stop in
  String.substring (Z.to_nat a) (Z.to_nat (b - a)) s.

End Py.


(** ** Entities *)

(** Modelled from the spec: the [FormProcessMapper] model, of which the
    service reads [id], [form_name] and [process_key] (data model,
    "maps a form identifier to the workflow definition (process key) and
    display name"). *)
Module FormProcessMapper.

Record t := Build {
  id : Z;
  form_name : pyval;
  process_key : pyval;
}.

End FormProcessMapper.

(** Modelled from the spec: the [Application] model.  The attributes are
    those of the data model; the service reads [id], [form_url],
    [application_name], [created_by] and [created]. *)
Module Application.

Record t := Build {
  id : Z;
  application_name : pyval;
  application_status : pyval;
  form_process_mapper_id : pyval;
  form_url : pyval;
  process_instance_id : pyval;
  created_by : pyval;
  created : Z;
  modified : Z;
}.

End Application.

Abbreviation dict := (gmap string pyval).
Abbreviation kwargs := (list (string * pyval)).
Abbreviation table := (list Application.t).

(** ** Collaborators

    What the module imports and this file does not own: the system
    constant, the workflow engine and the authorisation provider behind
    [BPMService], the mapper lookup, the clock, and the find operations
    of the [Application] model.  The external services answer as a
    function of the moment of the call (the number of calls made so far)
    and of the arguments, so that their answers may change over time. *)
Record Env := {
  NEW_APPLICATION_STATUS : pyval;
  engine_start : nat → pyval → pyval → string → res pyval;
  provider_forms : nat → string → res pyval;
  mapper_of_form : pyval → res FormProcessMapper.t;
  utcnow : nat → Z;
  datetime_str : Z → string;
  repr : pyval → string;
  q_find_by_form_names : table → kwargs → res (table * Z);
  q_find_id_by_form_names : table → kwargs → res (option Application.t);
  q_find_all : table → kwargs → res table;
  q_find_all_by_user : table → kwargs → res (table * Z);
  q_find_all_by_user_group : table → kwargs → res table;
  q_find_all_applications : table → kwargs → res table;
  q_find_by_form_id : table → kwargs → res table;
  q_find_by_form_id_user : table → kwargs → res table;
}.

(** ** Process state *)

(** Calls made to the collaborators, oldest first. *)
Inductive event :=
| MapperFind (form_id : pyval)
| DbCreate (id : Z)
| DbUpdate (id : Z) (fields : dict)
| DbFind (operation : string) (args : kwargs)
| BpmStart (process_key payload : pyval) (token : string)
| AuthFetch (token : string)
| Log (level : string) (record : pyval).

Record State := mkState {
  objs : gmap nat dict;
  db : table;
  cache : list (string * pyval);
  trace : list event;
}.

Definition M (A : Type) : Type := State → res A * State.

Definition ret {A} (a : A) : M A := λ st, (Ok a, st).

Definition raise {A} (e : exn) : M A := λ st, (Raise e, st).

Definition bind {A B} (m : M A) (k : A → M B) : M B :=
  λ st, match m st with
        | (Ok a, st') => k a st'
        | (Raise e, st') => (Raise e, st')
        end.

(** [try: m  except BaseException as e: h e] *)
Definition try_except {A} (m : M A) (h : exn → M A) : M A :=
  λ st, match m st with
        | (Ok a, st') => (Ok a, st')
        | (Raise e, st') => h e st'
        end.

Definition lift {A} (r : res A) : M A := λ st, (r, st).

Definition get_state : M State := λ st, (Ok st, st).

Definition emit (ev : event) : M unit :=
  λ st, (Ok tt, mkState (objs st) (db st) (cache st) (trace st ++ [ev])).

Definition set_db (t : table) : M unit :=
  λ st, (Ok tt, mkState (objs st) t (cache st) (trace st)).

Definition set_cache (c : list (string * pyval)) : M unit :=
  λ st, (Ok tt, mkState (objs st) (db st) c (trace st)).

Definition set_obj (r : nat) (d : dict) : M unit :=
  λ st, (Ok tt, mkState (<[r := d]> (objs st)) (db st) (cache st) (trace st)).

Notation "'let*' x ':=' m 'in' k" := (bind m (λ x, k))
  (at level 10, x pattern, m at level 100, k at level 200).
Notation "m ';;' k" := (bind m (λ _, k))
  (at level 100, k at level 200, right associativity).

(** *** Dict objects: the caller and the service share the object [r]. *)

(** The contents of the dict object [r]. *)
Definition deref (r : nat) : M dict :=
  let* st := get_state in
  ret (default ∅ (objs st !! r)).

(** [r[key] = v] *)
Definition setitem (r : nat) (key : string) (v : pyval) : M unit :=
  let* d := deref r in
  set_obj r (<[key := v]> d).

(** [r[key]] *)
Definition getitem (r : nat) (key : string) : M pyval :=
  let* d := deref r in
  lift (Py.getitem (PDict d) key).

(** [key in r] *)
Definition contains (r : nat) (key : string) : M bool :=
  let* d := deref r in
  ret (bool_decide (is_Some (d !! key))).

(** ** Models, external services and the output schema *)
Section Collaborators.
Context (E : Env).

(** The moment of a call: the number of calls made so far. *)
Definition moment : M nat :=
  let* st := get_state in
  ret (length (trace st)).

(** [FormProcessMapper.find_form_by_form_id(form_id)] *)
Definition FormProcessMapper_find_form_by_form_id (form_id : pyval) : M FormProcessMapper.t :=
  emit (MapperFind form_id) ;;
  lift (mapper_of_form E form_id).

(** Modelled from the spec: the row [Application.create_from_dict]
    builds, when [n] rows exist and the time is [now] ("assigns
    identifier, timestamps").  A field the map lacks is stored as
    [None]; there is no process instance yet. *)
Definition new_row (n : nat) (now : Z) (application_info : dict) : Application.t :=
  let field k := default PNone (application_info !! k) in
  Application.Build
    (Z.of_nat n + 1)
    (field "application_name")
    (field "application_status")
    (field "form_process_mapper_id")
    (field "form_url")
    PNone
    (field "created_by")
    now now.

(** Modelled from the spec: [Application.create_from_dict], which is not
    in this module ("Persist the application record (assigns identifier,
    timestamps)"; the process-instance identifier is "absent until the
    workflow is successfully started"). *)
Definition Application_create_from_dict (application_info : dict) : M Application.t :=
  let* st := get_state in
  let application :=
    new_row (length (db st)) (utcnow E (length (trace st))) application_info in
  set_db (db st ++ [application]) ;;
  emit (DbCreate (Application.id application)) ;;
  ret application.

(** Modelled from the spec: the attributes of [application] after
    [application.update(fields)] has set those that [fields] names. *)
Definition assign (fields : dict) (now : Z) (application : Application.t) : Application.t :=
  let upd k old := default old (fields !! k) in
  Application.Build
    (Application.id application)
    (upd "application_name" (Application.application_name application))
    (upd "application_status" (Application.application_status application))
    (upd "form_process_mapper_id" (Application.form_process_mapper_id application))
    (upd "form_url" (Application.form_url application))
    (upd "process_instance_id" (Application.process_instance_id application))
    (upd "created_by" (Application.created_by application))
    (Application.created application)
    now.

(** Modelled from the spec: the table after the row of [application]'s
    identifier is written (a write of that single record). *)
Definition replace_row (application : Application.t) (t : table) : table :=
  (λ row, if Application.id row =? Application.id application then application else row) <$> t.

(** Modelled from the spec: [application.update(fields)], which is not
    in this module ("update(entity, fields) → entity": the attributes
    named by [fields] are set on the row of that identifier, in one
    write). *)
Definition Application_update (application : Application.t) (fields : dict) : M Application.t :=
  let* st := get_state in
  let application' := assign fields (utcnow E (length (trace st))) application in
  set_db (replace_row application' (db st)) ;;
  emit (DbUpdate (Application.id application) fields) ;;
  ret application'.

(** The find operations of the [Application] model are not in this
    module: each is one call to the repository of [E] with the keyword
    arguments of the source. *)
Definition query {A} (operation : string) (q : table → kwargs → res A) (args : kwargs) : M A :=
  let* st := get_state in
  emit (DbFind operation args) ;;
  lift (q (db st) args).

Definition Application_find_by_form_names := query "find_by_form_names" (q_find_by_form_names E).
Definition Application_find_id_by_form_names :=
  query "find_id_by_form_names" (q_find_id_by_form_names E).
Definition Application_find_all := query "find_all" (q_find_all E).
Definition Application_find_all_by_user := query "find_all_by_user" (q_find_all_by_user E).
Definition Application_find_all_by_user_group :=
  query "find_all_by_user_group" (q_find_all_by_user_group E).
Definition Application_find_all_applications :=
  query "find_all_applications" (q_find_all_applications E).
Definition Application_find_by_form_id := query "find_by_form_id" (q_find_by_form_id E).
Definition Application_find_by_form_id_user :=
  query "find_by_form_id_user" (q_find_by_form_id_user E).

(** [BPMService.post_process_start(process_key, payload, token)] *)
Definition BPMService_post_process_start (process_key payload : pyval) (token : string) : M pyval :=
  let* now := moment in
  emit (BpmStart process_key payload token) ;;
  lift (engine_start E now process_key payload token).

(** [BPMService.get_auth_form_details(token)] *)
Definition BPMService_get_auth_form_details (token : string) : M pyval :=
  let* now := moment in
  emit (AuthFetch token) ;;
  lift (provider_forms E now token).

(** Modelled from the spec: the output schema [ApplicationSchema], which
    is not in this module ("converts entities to the caller-facing
    representation; supports bulk (list) serialization").  The
    serialised record carries the entity's attributes; [formUrl] is the
    key [apply_attributes] reads. *)
Definition serialize (application : Application.t) : pyval :=
  PDict (list_to_map
    [ ("id", PInt (Application.id application));
      ("applicationName", Application.application_name application);
      ("applicationStatus", Application.application_status application);
      ("formProcessMapperId", Application.form_process_mapper_id application);
      ("formUrl", Application.form_url application);
      ("processInstanceId", Application.process_instance_id application);
      ("createdBy", Application.created_by application);
      ("created", PStr (datetime_str E (Application.created application)));
      ("modified", PStr (datetime_str E (Application.modified application))) ]).

(** Modelled from the spec: [ApplicationSchema().dump(applications,
    many=True)], the list of the serialised records. *)
Definition ApplicationSchema_dump_many (applications : table) : pyval :=
  PList (serialize <$> applications).

(** Modelled from the spec: [ApplicationSchema().dump(application)] for
    an entity or [None]; [None] has none of the schema's attributes, the
    record is empty. *)
Definition ApplicationSchema_dump (application : option Application.t) : pyval :=
  match application with
  | Some a => serialize a
  | None => PDict ∅
  end.

(** Modelled from the spec: [ApplicationSchema().dump([])], without
    [many] ("a forbidden indicator with an empty body"): the list is
    taken as one object, which has none of the schema's attributes. *)
Definition ApplicationSchema_dump_list_object (applications : table) : pyval :=
  PDict ∅.

End Collaborators.

(** ** [functools.lru_cache] *)

(** The cache is a list of (key, result) with the most recently used
    entry first. *)
Fixpoint cache_get (key : string) (c : list (string * pyval)) : option pyval :=
  match c with
  | [] => None
  | (k, v) :: c' => if String.eqb k key then Some v else cache_get key c'
  end.

Fixpoint cache_remove (key : string) (c : list (string * pyval)) : list (string * pyval) :=
  match c with
  | [] => []
  | (k, v) :: c' => if String.eqb k key then c' else (k, v) :: cache_remove key c'
  end.

(** [lru_cache(maxsize)(f)(key)]: a hit moves the entry to the front and
    returns the stored result without calling [f]; a miss calls [f],
    and stores the result, after dropping the oldest entry when the
    cache is full.  An exception of [f] stores nothing. *)
Definition lru_cache (maxsize : nat) (f : string → M pyval) (key : string) : M pyval :=
  let* st := get_state in
  match cache_get key (cache st) with
  | Some result =>
      set_cache ((key, result) :: cache_remove key (cache st)) ;;
      ret result
  | None =>
      let* result := f key in
      let* st' := get_state in
      (if (maxsize <=? length (cache st'))%nat
       then set_cache ((key, result) :: removelast (cache st'))
       else set_cache ((key, result) :: cache st')) ;;
      ret result
  end.

(** The find operations behind the operations on one application, and
    the output schema of the mapper ([FormProcessMapperSchema().dump]):
    collaborators like those of [Env], which the listings do not use. *)
Record Finders := {
  q_find_by_id : table → kwargs → res (option Application.t);
  q_find_id_by_user : table → kwargs → res (option Application.t);
  q_find_by_application_id : table → kwargs → res (option FormProcessMapper.t);
  mapper_dump : FormProcessMapper.t → pyval;
}.

(** ** The service *)

(** What [create_application] returns: the entity, or a value (a
    response with its status). *)
Inductive retval :=
| RApp (application : Application.t)
| RVal (v : pyval).

Module ApplicationService.
Section Service.
Context (E : Env).

(** [if v: v = int(v)] *)
Definition coerce_int (v : pyval) : res pyval :=
  if Py.truthy v then Py.int v else Ok v.

(** [if v: v = str(v)] *)
Definition coerce_str (v : pyval) : pyval :=
  if Py.truthy v then Py.str (repr E) v else v.

(** The body of the [try] of [create_application]. *)
Definition start_task (mapper : FormProcessMapper.t) (application : Application.t)
    (payload : pyval) (token : string) : M Application.t :=
  let* camunda_start_task :=
    BPMService_post_process_start E (FormProcessMapper.process_key mapper) payload token in
  let* process_instance_id := lift (Py.getitem camunda_start_task "id") in
  Application_update E application {[ "process_instance_id" := process_instance_id ]}.

Definition value (v : pyval) : pyval := PDict {[ "value" := v ]}.

(** The [payload] of [create_application]. *)
Definition start_payload (application : Application.t) : pyval :=
  PDict {[ "variables" := PDict (list_to_map
    [ ("applicationId", value (PInt (Application.id application)));
      ("formUrl", value (Application.form_url application));
      ("formName", value (Application.application_name application));
      ("submitterName", value (Application.created_by application));
      ("submissionDate", value (PStr (datetime_str E (Application.created application)))) ]) ]}.

Definition create_application (data : nat) (token : string) : M retval :=
  setitem data "application_status" (NEW_APPLICATION_STATUS E) ;;
  let* form_id := getitem data "form_id" in
  let* mapper := FormProcessMapper_find_form_by_form_id E form_id in
  setitem data "form_process_mapper_id" (PInt (FormProcessMapper.id mapper)) ;;
  setitem data "application_name" (FormProcessMapper.form_name mapper) ;;
  let* application_info := deref data in
  let* application := Application_create_from_dict E application_info in
  let* supplied := contains data "process_instance_id" in
  if supplied : bool then
    let* process_instance_id := getitem data "process_instance_id" in
    let* application :=
      Application_update E application {[ "process_instance_id" := process_instance_id ]} in
    ret (RApp application)
  else
    let payload := start_payload application in
    try_except
      (let* application := start_task mapper application payload token in
       ret (RApp application))
      (λ err,
         if Py.is_TypeError err then
           let response : pyval :=
             PDict (list_to_map
               [ ("message", PStr "Camunda workflow not able to create a task");
                 ("error", PExc err) ]) in
           emit (Log "critical" response) ;;
           ret (RVal (PTuple [response; PStatus BAD_GATEWAY]))
         else
           let response : pyval :=
             PTuple
               [ PDict (list_to_map
                   [ ("systemErrors", PExc err);
                     ("message", PStr "Camunda Process Mapper Key not provided") ]);
                 PStatus BAD_REQUEST ] in
           emit (Log "warning" response) ;;
           ret (RVal response)).

(** The caller's map once [create_application] has filled it in, and the
    row it then creates, when called in state [st] with a map of
    contents [d] whose form resolves to [mapper]. *)
Definition filled_in (mapper : FormProcessMapper.t) (d : dict) : dict :=
  <["application_name" := FormProcessMapper.form_name mapper]>
    (<["form_process_mapper_id" := PInt (FormProcessMapper.id mapper)]>
       (<["application_status" := NEW_APPLICATION_STATUS E]> d)).

Definition created_row (st : State) (mapper : FormProcessMapper.t) (d : dict) : Application.t :=
  new_row (length (db st)) (utcnow E (S (length (trace st)))) (filled_in mapper d).

(** What the workflow-start step of that call yields: the answer of the
    engine, then its ["id"]. *)
Definition start_outcome (token : string) (st : State) (mapper : FormProcessMapper.t)
    (d : dict) : res pyval :=
  res_bind
    (engine_start E (S (S (length (trace st)))) (FormProcessMapper.process_key mapper)
       (start_payload (created_row st mapper d)) token)
    (λ camunda_start_task, Py.getitem camunda_start_task "id").

(** [lru_cache(maxsize=32)] over the fetch from the provider. *)
Definition get_authorised_form_list (token : string) : M pyval :=
  lru_cache 32 (BPMService_get_auth_form_details E) token.

(** [for auth_form_detail in auth_form_details:
       form_names.append(auth_form_detail["formName"])] *)
Fixpoint append_form_names (items form_names : list pyval) : res (list pyval) :=
  match items with
  | [] => Ok form_names
  | auth_form_detail :: items' =>
      res_bind (Py.getitem auth_form_detail "formName") (λ name,
        append_form_names items' (form_names ++ [name]))
  end.

Definition collect_form_names (auth_form_details : pyval) : M (list pyval) :=
  lift (res_bind (Py.iter auth_form_details) (λ items, append_form_names items [])).

Definition get_auth_applications_and_count
    (token : string)
    (page_no limit order_by created_from created_to modified_from modified_to
     application_id application_name application_status created_by sort_order : pyval)
    : M pyval :=
  let* page_no := lift (coerce_int page_no) in
  let* limit := lift (coerce_int limit) in
  let order_by := coerce_str order_by in
  let* application_id := lift (coerce_int application_id) in
  let application_name := coerce_str application_name in
  let application_status := coerce_str application_status in
  let created_by := coerce_str created_by in
  let sort_order := coerce_str sort_order in
  let* auth_form_details := get_authorised_form_list token in
  if Py.truthy auth_form_details then
    let* form_names := collect_form_names auth_form_details in
    let* found := Application_find_by_form_names E
      [ ("form_names", PList form_names);
        ("application_id", application_id);
        ("application_name", application_name);
        ("application_status", application_status);
        ("created_by", created_by);
        ("page_no", page_no);
        ("limit", limit);
        ("order_by", order_by);
        ("modified_from", modified_from);
        ("modified_to", modified_to);
        ("sort_order", sort_order);
        ("created_from", created_from);
        ("created_to", created_to) ] in
    let '(applications, get_all_applications_count) := found in
    ret (PTuple [ApplicationSchema_dump_many E applications; PInt get_all_applications_count])
  else
    ret (PTuple [ApplicationSchema_dump_many E []; PInt 0]).

Definition get_auth_by_application_id (application_id : pyval) (token : string) : M pyval :=
  let* auth_form_details := get_authorised_form_list token in
  if Py.truthy auth_form_details then
    let* form_names := collect_form_names auth_form_details in
    let* application := Application_find_id_by_form_names E
      [ ("form_names", PList form_names); ("application_id", application_id) ] in
    ret (PTuple [ApplicationSchema_dump E application; PStatus OK])
  else
    ret (PTuple [ApplicationSchema_dump_list_object []; PStatus FORBIDDEN]).

Definition get_all_applications (page_no limit : pyval) : M pyval :=
  let* page_no := lift (coerce_int page_no) in
  let* limit := lift (coerce_int limit) in
  let* applications := Application_find_all E [ ("page_no", page_no); ("limit", limit) ] in
  ret (ApplicationSchema_dump_many E applications).

Definition get_all_applications_by_user
    (user_id page_no limit order_by sort_order created_from created_to modified_from
     modified_to created_by application_status application_name application_id : pyval)
    : M pyval :=
  let* page_no := lift (coerce_int page_no) in
  let* limit := lift (coerce_int limit) in
  let order_by := coerce_str order_by in
  let sort_order := coerce_str sort_order in
  let* application_id := lift (coerce_int application_id) in
  let application_name := coerce_str application_name in
  let application_status := coerce_str application_status in
  let created_by := coerce_str created_by in
  let* found := Application_find_all_by_user E
    [ ("user_id", user_id);
      ("page_no", page_no);
      ("limit", limit);
      ("order_by", order_by);
      ("sort_order", sort_order);
      ("application_id", application_id);
      ("application_name", application_name);
      ("application_status", application_status);
      ("created_by", created_by);
      ("modified_from", modified_from);
      ("modified_to", modified_to);
      ("created_from", created_from);
      ("created_to", created_to) ] in
  let '(applications, get_all_applications_count) := found in
  ret (PTuple [ApplicationSchema_dump_many E applications; PInt get_all_applications_count]).

Definition get_all_application_by_user_group (page_no limit user_id : pyval) : M pyval :=
  let* page_no := lift (coerce_int page_no) in
  let* limit := lift (coerce_int limit) in
  let* applications := Application_find_all_by_user_group E
    [ ("user_id", user_id); ("page_no", page_no); ("limit", limit) ] in
  ret (ApplicationSchema_dump_many E applications).

Definition get_all_application_count (token : string) (page_no limit : pyval) : M pyval :=
  let* page_no := lift (coerce_int page_no) in
  let* limit := lift (coerce_int limit) in
  let* auth_form_details := get_authorised_form_list token in
  if Py.truthy auth_form_details then
    let* form_names := collect_form_names auth_form_details in
    let* applications := Application_find_all_applications E
      [ ("form_names", PList form_names); ("page_no", page_no); ("limit", limit) ] in
    (* [applications.count()]: the number of rows of the query just made *)
    ret (PTuple [ApplicationSchema_dump_many E applications;
                 PInt (Z.of_nat (length applications))])
  else
    ret (PTuple [ApplicationSchema_dump_many E []; PInt 0]).

Definition get_all_applications_form_id (form_id page_no limit : pyval) : M pyval :=
  let* page_no := lift (coerce_int page_no) in
  let* limit := lift (coerce_int limit) in
  let* applications := Application_find_by_form_id E
    [ ("form_id", form_id); ("page_no", page_no); ("limit", limit) ] in
  ret (ApplicationSchema_dump_many E applications).

Definition get_all_applications_form_id_user (form_id user_id page_no limit : pyval) : M pyval :=
  let* page_no := lift (coerce_int page_no) in
  let* limit := lift (coerce_int limit) in
  let* applications := Application_find_by_form_id_user E
    [ ("form_id", form_id); ("user_id", user_id); ("page_no", page_no); ("limit", limit) ] in
  ret (ApplicationSchema_dump_many E applications).

(** *** Operations on one application *)
Context (F : Finders).

Definition Application_find_by_id := query "find_by_id" (q_find_by_id F).
Definition Application_find_id_by_user := query "find_id_by_user" (q_find_id_by_user F).
Definition FormProcessMapper_find_by_application_id :=
  query "find_by_application_id" (q_find_by_application_id F).

Definition get_application (application_id : pyval) : M pyval :=
  let* application := Application_find_by_id [ ("application_id", application_id) ] in
  ret (ApplicationSchema_dump E application).

(** [if application:] an entity is truthy, [None] is not. *)
Definition get_application_by_user (application_id user_id : pyval) : M pyval :=
  let* application := Application_find_id_by_user
    [ ("application_id", application_id); ("user_id", user_id) ] in
  match application with
  | Some _ => ret (PTuple [ApplicationSchema_dump E application; PStatus OK])
  | None => ret (PTuple [ApplicationSchema_dump_list_object []; PStatus FORBIDDEN])
  end.

(** [data] is the dict object the caller passes; the function ends
    without a [return], that is with [None]. *)
Definition update_application (application_id : pyval) (data : nat) : M pyval :=
  let* application := Application_find_by_id [ ("application_id", application_id) ] in
  match application with
  | Some application =>
      let* fields := deref data in
      Application_update E application fields ;;
      ret PNone
  | None => raise (Exn (BusinessException BAD_REQUEST) "Invalid application")
  end.

Definition get_application_form_mapper_by_id (application_id : pyval) : M pyval :=
  let* mapper := FormProcessMapper_find_by_application_id
    [ ("application_id", application_id) ] in
  match mapper with
  | Some mapper => ret (mapper_dump F mapper)
  | None => raise (Exn (BusinessException BAD_REQUEST) "Invalid application")
  end.

End Service.
End ApplicationService.

Module ApplicationSchemaWrapper.

(** [try: m  except KeyError as err: h err]; any other exception goes
    on to the caller. *)
Definition try_except_KeyError {A} (m : M A) (h : exn → M A) : M A :=
  try_except m (λ err,
    match exc_type err with
    | KeyError => h err
    | _ => raise err
    end).

(** [application] is the dict object the caller passes; the same object
    is returned, with its contents after the two assignments.  Only a
    str has the [find] method and the slices used here. *)
Definition apply_attributes (application : nat) : M pyval :=
  try_except_KeyError
    (let* formurl := getitem application "formUrl" in
     match formurl with
     | PStr formurl =>
         setitem application "formId"
           (PStr (Py.slice formurl (Py.find formurl "/form/" + 6)
                                   (Py.find formurl "/submission/"))) ;;
         setitem application "submissionId"
           (PStr (Py.slice formurl (Py.find formurl "/submission/" + 12)
                                   (Py.len formurl))) ;;
         let* contents := deref application in
         ret (PDict contents)
     | _ => raise (Exn AttributeError "object has no attribute 'find'")
     end)
    (λ err,
       ret (PTuple [ PStr "The required fields of Input request are not passed";
                     PStatus BAD_REQUEST ])).

End ApplicationSchemaWrapper.

(** [ApplicationService.apply_custom_attributes], placed after the
    wrapper it calls.  Its argument is a dict object or a list of dict
    objects ([isinstance(application_schema, list)]); what
    [apply_attributes] returns is dropped, and the argument is
    returned. *)
Inductive schema_arg :=
| OneRecord (application : nat)
| RecordList (entries : list nat).

Fixpoint apply_to_each (entries : list nat) : M unit :=
  match entries with
  | [] => ret tt
  | entry :: entries' =>
      ApplicationSchemaWrapper.apply_attributes entry ;;
      apply_to_each entries'
  end.

Definition apply_custom_attributes (application_schema : schema_arg) : M schema_arg :=
  match application_schema with
  | RecordList entries =>
      apply_to_each entries ;;
      ret application_schema
  | OneRecord application =>
      ApplicationSchemaWrapper.apply_attributes application ;;
      ret application_schema
  end.

(** The contents of a record once [apply_attributes] has run on it
    without an error: with a string [formUrl] the two assignments are
    made, without a [formUrl] nothing is. *)
Definition with_ids (d : dict) : dict :=
  match d !! "formUrl" with
  | Some (PStr formurl) =>
      <["submissionId" := PStr (Py.slice formurl (Py.find formurl "/submission/" + 12)
                                          (Py.len formurl))]>
        (<["formId" := PStr (Py.slice formurl (Py.find formurl "/form/" + 6)
                                      (Py.find formurl "/submission/"))]> d)
  | _ => d
  end.

(** [apply_attributes] ends without an exception on such a record: the
    [formUrl], when there is one, is a string. *)
Definition scrapable (d : dict) : Prop :=
  match d !! "formUrl" with
  | Some (PStr _) | None => True
  | Some _ => False
  end.

(** ** Requests to the authorisation-scoped read operations *)

Inductive auth_read :=
| ApplicationsAndCount (token : string)
    (page_no limit order_by created_from created_to modified_from modified_to
     application_id application_name application_status created_by sort_order : pyval)
| ApplicationCount (token : string) (page_no limit : pyval)
| ByApplicationId (application_id : pyval) (token : string).

Definition credential (op : auth_read) : string :=
  match op with
  | ApplicationsAndCount token _ _ _ _ _ _ _ _ _ _ _ _ => token
  | ApplicationCount token _ _ => token
  | ByApplicationId _ token => token
  end.

Definition perform (E : Env) (op : auth_read) : M pyval :=
  match op with
  | ApplicationsAndCount token page_no limit order_by created_from created_to
      modified_from modified_to application_id application_name application_status
      created_by sort_order =>
      ApplicationService.get_auth_applications_and_count E token page_no limit order_by
        created_from created_to modified_from modified_to application_id application_name
        application_status created_by sort_order
  | ApplicationCount token page_no limit =>
      ApplicationService.get_all_application_count E token page_no limit
  | ByApplicationId application_id token =>
      ApplicationService.get_auth_by_application_id E application_id token
  end.

(** The requests are served one after the other; a request that raises
    does not stop the next one. *)
Fixpoint serve (E : Env) (ops : list auth_read) (st : State) : list (res pyval) * State :=
  match ops with
  | [] => ([], st)
  | op :: ops' =>
      let '(r, st1) := perform E op st in
      let '(rs, st2) := serve E ops' st1 in
      (r :: rs, st2)
  end.

(** The fail-closed answer of each operation. *)
Definition fail_closed (op : auth_read) : pyval :=
  match op with
  | ByApplicationId _ _ => PTuple [PDict ∅; PStatus FORBIDDEN]
  | _ => PTuple [PList []; PInt 0]
  end.

Definition returns {A} (r : res A) : Prop :=
  match r with
  | Ok _ => True
  | Raise _ => False
  end.

(** The pagination inputs and the numeric filter of a request can be
    read as integers. *)
Definition coercible (op : auth_read) : Prop :=
  match op with
  | ApplicationsAndCount _ page_no limit _ _ _ _ _ application_id _ _ _ _ =>
      returns (ApplicationService.coerce_int page_no)
      ∧ returns (ApplicationService.coerce_int limit)
      ∧ returns (ApplicationService.coerce_int application_id)
  | ApplicationCount _ page_no limit =>
      returns (ApplicationService.coerce_int page_no)
      ∧ returns (ApplicationService.coerce_int limit)
  | ByApplicationId _ _ => True
  end.

(** ** Observations on states *)

Definition is_bpm (ev : event) : bool :=
  match ev with
  | BpmStart _ _ _ => true
  | _ => false
  end.

(** The writes to the application table. *)
Definition is_write (ev : event) : bool :=
  match ev with
  | DbCreate _ | DbUpdate _ _ => true
  | _ => false
  end.

Definition is_fetch (token : string) (ev : event) : bool :=
  match ev with
  | AuthFetch t => String.eqb t token
  | _ => false
  end.

Definition is_find (ev : event) : bool :=
  match ev with
  | DbFind _ _ => true
  | _ => false
  end.

Definition is_create (ev : event) : bool :=
  match ev with
  | DbCreate _ => true
  | _ => false
  end.

Definition is_update (ev : event) : bool :=
  match ev with
  | DbUpdate _ _ => true
  | _ => false
  end.

Definition is_mapper_find (ev : event) : bool :=
  match ev with
  | MapperFind _ => true
  | _ => false
  end.

Definition is_any_fetch (ev : event) : bool :=
  match ev with
  | AuthFetch _ => true
  | _ => false
  end.

(** The state after the credentials [tokens] are looked up in turn,
    whatever each lookup yields. *)
Definition look_up_each (E : Env) (tokens : list string) (st : State) : State :=
  foldl (λ st token, (ApplicationService.get_authorised_form_list E token st).2) st tokens.

(** A plain read: nothing but the trace changes, and the trace gains at
    most one call, a find of the repository. *)
Definition only_finds (st st' : State) : Prop :=
  objs st' = objs st ∧ db st' = db st ∧ cache st' = cache st
  ∧ (trace st' = trace st ∨ ∃ operation args, trace st' = trace st ++ [DbFind operation args]).

(** The identifiers in use are at most the number of rows, so that the
    identifier of the next row is new. *)
Definition ids_bounded (t : table) : Prop :=
  Forall (λ row, Application.id row ≤ Z.of_nat (length t)) t.

(** The cache holds one entry per credential and at most 32 entries. *)
Definition cache_ok (c : list (string * pyval)) : Prop :=
  NoDup c.*1 ∧ (length c ≤ 32)%nat.

(** The credentials other than [token] that a list of requests uses. *)
Definition others (token : string) (ops : list auth_read) : gset string :=
  list_to_set (filter (λ u, u ≠ token) (credential <$> ops)).

(** The entry of [token] is retained: it is in the cache with the result
    [v], and the credentials in front of it, with those of [S], are
    fewer than 32. *)
Definition retained (token : string) (v : pyval) (S : gset string)
    (c : list (string * pyval)) : Prop :=
  ∃ front back, c = front ++ (token, v) :: back
    ∧ (size (list_to_set front.*1 ∪ S) < 32)%nat.





(** ** An in-memory repository *)

(** Modelled from the spec: the find operations of the [Application]
    model, which are not in this module.  The data model's query filter
    is "pagination (page number, page size — both optional, meaning
    return all), sort field and direction, and an open set of optional
    equality/range predicates (status, owner, form identifier/name,
    application name substring, creation/modification date ranges)";
    "absent fields impose no constraint", and the total count "reflects
    the full filtered set size, not just the returned page".  Rows are
    kept in table order; dates are read as integers. *)
Module Repository.

Fixpoint kw (args : kwargs) (name : string) : pyval :=
  match args with
  | [] => PNone
  | (k, v) :: args' => if String.eqb k name then v else kw args' name
  end.

(** Comparison of a column with a value. *)
Definition eqv (a b : pyval) : bool :=
  match a, b with
  | PNone, PNone => true
  | PBool x, PBool y => Bool.eqb x y
  | PInt x, PInt y => x =? y
  | PStr x, PStr y => String.eqb x y
  | _, _ => false
  end.

Definition has_text (column sub : pyval) : bool :=
  match column, sub with
  | PStr s, PStr t => bool_decide (is_Some (String.index 0 t s))
  | _, _ => false
  end.

(** A predicate applies only when its filter value is truthy. *)
Definition when (flt : pyval) (test : pyval → bool) : bool :=
  if Py.truthy flt then test flt else true.

Definition at_least (t : Z) (flt : pyval) : bool :=
  match flt with
  | PInt lo => lo <=? t
  | _ => true
  end.

Definition at_most (t : Z) (flt : pyval) : bool :=
  match flt with
  | PInt hi => t <=? hi
  | _ => true
  end.

Definition matches (args : kwargs) (row : Application.t) : bool :=
  when (kw args "application_id") (eqv (PInt (Application.id row)))
  && when (kw args "application_name") (has_text (Application.application_name row))
  && when (kw args "application_status") (eqv (Application.application_status row))
  && when (kw args "created_by") (eqv (Application.created_by row))
  && when (kw args "created_from") (at_least (Application.created row))
  && when (kw args "created_to") (at_most (Application.created row))
  && when (kw args "modified_from") (at_least (Application.modified row))
  && when (kw args "modified_to") (at_most (Application.modified row)).

Definition authorised (args : kwargs) (row : Application.t) : bool :=
  match kw args "form_names" with
  | PList form_names => existsb (eqv (Application.application_name row)) form_names
  | _ => false
  end.

Definition page (page_no limit : pyval) (rows : table) : table :=
  match page_no, limit with
  | PInt page_no, PInt limit =>
      if (0 <? page_no) && (0 <? limit)
      then take (Z.to_nat limit) (drop (Z.to_nat ((page_no - 1) * limit)) rows)
      else rows
  | _, _ => rows
  end.

Definition paginate (args : kwargs) (rows : table) : table :=
  page (kw args "page_no") (kw args "limit") rows.

Definition find_by_form_names (t : table) (args : kwargs) : res (table * Z) :=
  let found := List.filter (λ row, authorised args row && matches args row) t in
  Ok (paginate args found, Z.of_nat (length found)).

Definition find_id_by_form_names (t : table) (args : kwargs) : res (option Application.t) :=
  Ok (head (List.filter (λ row, authorised args row
                            && eqv (PInt (Application.id row)) (kw args "application_id")) t)).

Definition find_all (t : table) (args : kwargs) : res table :=
  Ok (paginate args t).

Definition find_all_by_user (t : table) (args : kwargs) : res (table * Z) :=
  let found := List.filter (λ row, eqv (Application.created_by row) (kw args "user_id")
                              && matches args row) t in
  Ok (paginate args found, Z.of_nat (length found)).

Definition find_all_applications (t : table) (args : kwargs) : res table :=
  Ok (paginate args (List.filter (authorised args) t)).

Definition find_by_form_id (t : table) (args : kwargs) : res table :=
  Ok (paginate args
        (List.filter (λ row, eqv (Application.form_process_mapper_id row) (kw args "form_id")) t)).

Definition find_by_form_id_user (t : table) (args : kwargs) : res table :=
  Ok (paginate args
        (List.filter (λ row, eqv (Application.form_process_mapper_id row) (kw args "form_id")
                         && eqv (Application.created_by row) (kw args "user_id")) t)).

Definition find_by_id (t : table) (args : kwargs) : res (option Application.t) :=
  Ok (head (List.filter (λ row, eqv (PInt (Application.id row)) (kw args "application_id")) t)).

Definition find_id_by_user (t : table) (args : kwargs) : res (option Application.t) :=
  Ok (head (List.filter (λ row, eqv (PInt (Application.id row)) (kw args "application_id")
                            && eqv (Application.created_by row) (kw args "user_id")) t)).

End Repository.

(** ** A concrete world, for running the service *)
Module Demo.

Definition mappers (form_id : pyval) : res FormProcessMapper.t :=
  match form_id with
  | PStr "F1" => Ok (FormProcessMapper.Build 1 (PStr "Leave request") (PStr "K1"))
  | PStr "F2" => Ok (FormProcessMapper.Build 2 (PStr "Expense claim") (PStr "K2"))
  | PStr "F3" => Ok (FormProcessMapper.Build 3 (PStr "Badge request") PNone)
  | _ => Raise (Exn (BusinessException BAD_REQUEST) "Mapper not found")
  end.

(** The engine starts [K1], answers [K2] with no body, finds [K4]
    malformed, and refuses any other process key (a missing one
    included). *)
Definition engine (now : nat) (process_key payload : pyval) (token : string) : res pyval :=
  match process_key with
  | PStr "K1" => Ok (PDict {[ "id" := PStr "proc-123" ]})
  | PStr "K2" => Ok PNone
  | PStr "K4" => Raise (Exn TypeError "unexpected response")
  | _ => Raise (Exn (OtherError "HTTPError") "404 Client Error")
  end.

(** The provider knows one form for [alice], none for [bob] and gives no
    answer for [carol]; any other credential sees a form of its own
    name. *)
Definition provider (now : nat) (token : string) : res pyval :=
  match token with
  | "alice" => Ok (PList [PDict {[ "formName" := PStr "Leave request" ]}])
  | "bob" => Ok (PList [])
  | "carol" => Ok PNone
  | _ => Ok (PList [PDict {[ "formName" := PStr token ]}])
  end.

Definition env : Env := {|
  NEW_APPLICATION_STATUS := PStr "new";
  engine_start := engine;
  provider_forms := provider;
  mapper_of_form := mappers;
  utcnow := λ now, 1000 + Z.of_nat now;
  datetime_str := Py.str_of_Z;
  repr := λ _, "<object>";
  q_find_by_form_names := Repository.find_by_form_names;
  q_find_id_by_form_names := Repository.find_id_by_form_names;
  q_find_all := Repository.find_all;
  q_find_all_by_user := Repository.find_all_by_user;
  q_find_all_by_user_group := Repository.find_all;
  q_find_all_applications := Repository.find_all_applications;
  q_find_by_form_id := Repository.find_by_form_id;
  q_find_by_form_id_user := Repository.find_by_form_id_user;
|}.

Definition row (id : Z) (name status url owner : string) (day : Z) : Application.t :=
  Application.Build id (PStr name) (PStr status) (PInt 1) (PStr url) PNone (PStr owner) day day.

Definition rows : table :=
  [ row 1 "Leave request" "new" "http://host/form/f1/submission/s1" "dana" 10;
    row 2 "Leave request" "Completed" "http://host/form/f1/submission/s2" "erin" 11;
    row 3 "Leave request" "new" "http://host/form/f1/submission/s3" "dana" 12 ].

(** The caller holds the request map as object 0. *)
Definition state0 (data : dict) (t : table) : State :=
  mkState {[ 0%nat := data ]} t [] [].

Definition request (form_id : string) : dict :=
  <[ "form_id" := PStr form_id ]>
    (<[ "form_url" := PStr "http://host/form/f1/submission/s9" ]>
       (<[ "created_by" := PStr "dana" ]>
          (<[ "application_status" := PStr "Approved" ]> ∅))).

(** The credentials [t0], [t1], ... *)
Definition tokens (n : nat) : list string :=
  (λ i, "t" +:+ Py.str_of_Z (Z.of_nat i)) <$> seq 0 n.

(** The state after looking up each of [toks] in turn. *)
Definition lookups (toks : list string) (st : State) : State :=
  foldl (λ st token, (ApplicationService.get_authorised_form_list env token st).2) st toks.


(** The same world with another authorisation provider. *)
Definition world (provider_forms : nat → string → res pyval) : Env := {|
  NEW_APPLICATION_STATUS := PStr "new";
  engine_start := engine;
  provider_forms := provider_forms;
  mapper_of_form := mappers;
  utcnow := λ now, 1000 + Z.of_nat now;
  datetime_str := Py.str_of_Z;
  repr := λ _, "<object>";
  q_find_by_form_names := Repository.find_by_form_names;
  q_find_id_by_form_names := Repository.find_id_by_form_names;
  q_find_all := Repository.find_all;
  q_find_all_by_user := Repository.find_all_by_user;
  q_find_all_by_user_group := Repository.find_all;
  q_find_all_applications := Repository.find_all_applications;
  q_find_by_form_id := Repository.find_by_form_id;
  q_find_by_form_id_user := Repository.find_by_form_id_user;
|}.

(** A provider that is down at the moment 0 and answers afterwards. *)
Definition flaky (now : nat) (token : string) : res pyval :=
  match now with
  | O => Raise (Exn (OtherError "ConnectionError") "connection refused")
  | _ => provider now token
  end.

(** A provider that knows one form for everyone at the moment 0 and
    none afterwards. *)
Definition revoked (now : nat) (token : string) : res pyval :=
  match now with
  | O => Ok (PList [PDict {[ "formName" := PStr "Leave request" ]}])
  | _ => Ok (PList [])
  end.

(** A provider whose records lack the form name. *)
Definition nameless (now : nat) (token : string) : res pyval :=
  Ok (PList [PDict {[ "formId" := PStr "F1" ]}]).

(** The mapper of an application is found through its
    [form_process_mapper_id]; the demo knows the mapper 1. *)
Definition mapper_of_application (t : table) (args : kwargs) : res (option FormProcessMapper.t) :=
  match Repository.find_by_id t args with
  | Ok (Some row) =>
      match Application.form_process_mapper_id row with
      | PInt 1 => Ok (Some (FormProcessMapper.Build 1 (PStr "Leave request") (PStr "K1")))
      | _ => Ok None
      end
  | Ok None => Ok None
  | Raise e => Raise e
  end.

Definition finders : Finders := {|
  q_find_by_id := Repository.find_by_id;
  q_find_id_by_user := Repository.find_id_by_user;
  q_find_by_application_id := mapper_of_application;
  mapper_dump := λ mapper,
    PDict (list_to_map
      [ ("id", PInt (FormProcessMapper.id mapper));
        ("formName", FormProcessMapper.form_name mapper);
        ("processKey", FormProcessMapper.process_key mapper) ]);
|}.

End Demo.

(** * Properties *)

(** ** The builtins on examples *)

Example int_of_numeric_string : Py.int (PStr "5") = Ok (PInt 5).
Proof. reflexivity. Qed.

Example int_of_padded_string : Py.int (PStr " -1_000 ") = Ok (PInt (-1000)).
Proof. reflexivity. Qed.

Example int_of_text :
  Py.int (PStr "five") = Raise (Exn ValueError "invalid literal for int() with base 10").
Proof. reflexivity. Qed.

Example slice_with_negative_stop : Py.slice "abcdefgh" 5 (-1) = "fg"%string.
Proof. reflexivity. Qed.

Example find_missing : Py.find "abc" "/form/" = -1.
Proof. reflexivity. Qed.

(** ** Running the monad *)

Lemma bind_ok {A B} (m : M A) (k : A → M B) st a st' :
  m st = (Ok a, st') → bind m k st = k a st'.
Proof. intros H. unfold bind. by rewrite H. Qed.

Lemma bind_raise {A B} (m : M A) (k : A → M B) st e st' :
  m st = (Raise e, st') → bind m k st = (Raise e, st').
Proof. intros H. unfold bind. by rewrite H. Qed.

Lemma deref_eq r st d :
  objs st !! r = Some d → deref r st = (Ok d, st).
Proof. intros H. unfold deref, bind, get_state, ret. by rewrite H. Qed.

Lemma setitem_eq r key v st d :
  objs st !! r = Some d →
  setitem r key v st
  = (Ok tt, mkState (<[r := <[key := v]> d]> (objs st)) (db st) (cache st) (trace st)).
Proof. intros H. unfold setitem. by rewrite (bind_ok _ _ _ _ _ (deref_eq _ _ _ H)). Qed.

Lemma getitem_eq r key st d v :
  objs st !! r = Some d → d !! key = Some v → getitem r key st = (Ok v, st).
Proof.
  intros H Hk. unfold getitem. rewrite (bind_ok _ _ _ _ _ (deref_eq _ _ _ H)).
  unfold lift. simpl. by rewrite Hk.
Qed.

Lemma getitem_missing r key st d :
  objs st !! r = Some d → d !! key = None → getitem r key st = (Raise (Exn KeyError key), st).
Proof.
  intros H Hk. unfold getitem. rewrite (bind_ok _ _ _ _ _ (deref_eq _ _ _ H)).
  unfold lift. simpl. by rewrite Hk.
Qed.

Lemma contains_eq r key st d :
  objs st !! r = Some d →
  contains r key st = (Ok (bool_decide (is_Some (d !! key))), st).
Proof. intros H. unfold contains. by rewrite (bind_ok _ _ _ _ _ (deref_eq _ _ _ H)). Qed.

Lemma find_form_eq E form_id st :
  FormProcessMapper_find_form_by_form_id E form_id st
  = (mapper_of_form E form_id,
     mkState (objs st) (db st) (cache st) (trace st ++ [MapperFind form_id])).
Proof. reflexivity. Qed.

Lemma create_from_dict_eq E info st :
  Application_create_from_dict E info st
  = (Ok (new_row (length (db st)) (utcnow E (length (trace st))) info),
     mkState (objs st)
       (db st ++ [new_row (length (db st)) (utcnow E (length (trace st))) info])
       (cache st)
       (trace st ++ [DbCreate (Z.of_nat (length (db st)) + 1)])).
Proof. reflexivity. Qed.

Lemma update_eq E a fields st :
  Application_update E a fields st
  = (Ok (assign fields (utcnow E (length (trace st))) a),
     mkState (objs st)
       (replace_row (assign fields (utcnow E (length (trace st))) a) (db st))
       (cache st)
       (trace st ++ [DbUpdate (Application.id a) fields])).
Proof. reflexivity. Qed.

Lemma post_process_start_eq E process_key payload token st :
  BPMService_post_process_start E process_key payload token st
  = (engine_start E (length (trace st)) process_key payload token,
     mkState (objs st) (db st) (cache st) (trace st ++ [BpmStart process_key payload token])).
Proof. reflexivity. Qed.

(** Writing a row whose identifier is not in the table changes nothing;
    writing the row created last replaces that row only. *)
Lemma replace_row_absent a t :
  Forall (λ row, Application.id row ≠ Application.id a) t → replace_row a t = t.
Proof.
  unfold replace_row. induction t as [|row t IH]; intros H; [done|].
  apply Forall_cons in H as [Hrow Ht]. rewrite fmap_cons, (IH Ht).
  by destruct (Z.eqb_spec (Application.id row) (Application.id a)).
Qed.

Lemma replace_row_last a row t :
  ids_bounded t →
  Application.id row = Z.of_nat (length t) + 1 →
  Application.id a = Application.id row →
  replace_row a (t ++ [row]) = t ++ [a].
Proof.
  intros Hb Hrow Ha.
  assert (replace_row a t = t) as Ht.
  { apply replace_row_absent. eapply Forall_impl; [exact Hb|]. simpl. lia. }
  unfold replace_row in *. rewrite fmap_app, Ht. simpl.
  by rewrite Ha, Z.eqb_refl.
Qed.

Ltac heap := cbn [objs db cache trace]; first [ eassumption | apply lookup_insert_eq ].

Ltac key :=
  first [ eassumption | apply lookup_insert_eq | (rewrite lookup_insert_ne by done; key) ].

(** One step of a [let*]: the first action is a dict access or a write
    to the table. *)
Ltac run :=
  (erewrite bind_ok;
    [| first [ apply setitem_eq; heap
             | eapply getitem_eq; [heap | key]
             | apply contains_eq; heap
             | apply deref_eq; heap
             | apply create_from_dict_eq
             | apply update_eq ] ]);
  cbn [objs db cache trace]; rewrite ?insert_insert_eq.

Ltac moments :=
  rewrite ?length_app; simpl length;
  repeat match goal with
    | |- context [(?n + 1)%nat] => replace (n + 1)%nat with (S n) by lia
    end.

(** ** [create_application], path by path *)

Import ApplicationService.

Lemma start_task_eq E mapper a payload token st :
  start_task E mapper a payload token st
  = match res_bind
            (engine_start E (length (trace st)) (FormProcessMapper.process_key mapper)
               payload token)
            (λ response, Py.getitem response "id") with
    | Ok pid =>
        Application_update E a {[ "process_instance_id" := pid ]}
          (mkState (objs st) (db st) (cache st)
             (trace st ++ [BpmStart (FormProcessMapper.process_key mapper) payload token]))
    | Raise err =>
        (Raise err,
         mkState (objs st) (db st) (cache st)
           (trace st ++ [BpmStart (FormProcessMapper.process_key mapper) payload token]))
    end.
Proof.
  unfold start_task, bind at 1. rewrite post_process_start_eq.
  destruct (engine_start E _ _ _ _) as [response|err]; [|done]. simpl.
  unfold bind, lift. by destruct (Py.getitem response "id").
Qed.

Section Create.
Context (E : Env) (data : nat) (token : string) (st : State) (d : dict).
Hypothesis Hdata : objs st !! data = Some d.

(** The map has no [form_id]: [data["form_id"]] raises. *)
Lemma create_application_no_form_id :
  d !! "form_id" = None →
  create_application E data token st
  = (Raise (Exn KeyError "form_id"),
     mkState (<[data := <["application_status" := NEW_APPLICATION_STATUS E]> d]> (objs st))
       (db st) (cache st) (trace st)).
Proof.
  intros Hf. unfold create_application. run.
  erewrite bind_raise; [done|]. eapply getitem_missing; [heap|].
  by rewrite lookup_insert_ne.
Qed.

(** The mapper lookup raises. *)
Lemma create_application_no_mapper form_id err :
  d !! "form_id" = Some form_id →
  mapper_of_form E form_id = Raise err →
  create_application E data token st
  = (Raise err,
     mkState (<[data := <["application_status" := NEW_APPLICATION_STATUS E]> d]> (objs st))
       (db st) (cache st) (trace st ++ [MapperFind form_id])).
Proof.
  intros Hf Hm. unfold create_application. run. run.
  erewrite bind_raise; [done|]. by rewrite find_form_eq, Hm.
Qed.

Context (form_id : pyval) (mapper : FormProcessMapper.t).
Hypothesis Hform : d !! "form_id" = Some form_id.
Hypothesis Hmapper : mapper_of_form E form_id = Ok mapper.

(** The caller supplied a process instance. *)
Lemma create_application_supplied pid :
  d !! "process_instance_id" = Some pid →
  let row := created_row E st mapper d in
  let a := assign {[ "process_instance_id" := pid ]} (utcnow E (S (S (length (trace st))))) row in
  create_application E data token st
  = (Ok (RApp a),
     mkState (<[data := filled_in E mapper d]> (objs st)) (replace_row a (db st ++ [row]))
       (cache st)
       (trace st ++ [ MapperFind form_id; DbCreate (Application.id row);
                      DbUpdate (Application.id row) {[ "process_instance_id" := pid ]} ])).
Proof.
  intros Hp row a. unfold create_application. run. run.
  erewrite bind_ok; [| rewrite find_form_eq, Hmapper; reflexivity]. cbn [objs db cache trace].
  do 5 run.
  rewrite bool_decide_true by (rewrite !lookup_insert_ne by done; eauto).
  run. run. unfold ret. moments. by rewrite <- !app_assoc.
Qed.

(** The workflow is started for the new row. *)
Lemma create_application_launched :
  d !! "process_instance_id" = None →
  let row := created_row E st mapper d in
  let started :=
    BpmStart (FormProcessMapper.process_key mapper) (start_payload E row) token in
  create_application E data token st
  = match start_outcome E token st mapper d with
    | Ok pid =>
        let a := assign {[ "process_instance_id" := pid ]}
                   (utcnow E (S (S (S (length (trace st)))))) row in
        (Ok (RApp a),
         mkState (<[data := filled_in E mapper d]> (objs st)) (replace_row a (db st ++ [row]))
           (cache st)
           (trace st ++ [ MapperFind form_id; DbCreate (Application.id row); started;
                          DbUpdate (Application.id row) {[ "process_instance_id" := pid ]} ]))
    | Raise err =>
        if Py.is_TypeError err then
          let response : pyval :=
            PDict (<["message" := PStr "Camunda workflow not able to create a task"]>
                     (<["error" := PExc err]> ∅)) in
          (Ok (RVal (PTuple [response; PStatus BAD_GATEWAY])),
           mkState (<[data := filled_in E mapper d]> (objs st)) (db st ++ [row]) (cache st)
             (trace st ++ [ MapperFind form_id; DbCreate (Application.id row); started;
                            Log "critical" response ]))
        else
          let response : pyval :=
            PTuple [ PDict (<["systemErrors" := PExc err]>
                              (<["message" := PStr "Camunda Process Mapper Key not provided"]> ∅));
                     PStatus BAD_REQUEST ] in
          (Ok (RVal response),
           mkState (<[data := filled_in E mapper d]> (objs st)) (db st ++ [row]) (cache st)
             (trace st ++ [ MapperFind form_id; DbCreate (Application.id row); started;
                            Log "warning" response ]))
    end.
Proof.
  intros Hp row started. unfold create_application. run. run.
  erewrite bind_ok; [| rewrite find_form_eq, Hmapper; reflexivity]. cbn [objs db cache trace].
  do 5 run.
  rewrite bool_decide_false by (rewrite !lookup_insert_ne by done; rewrite Hp; by intros [? ?]).
  unfold try_except, bind at 1. rewrite start_task_eq. cbn [objs db cache trace]. moments.
  unfold start_outcome. fold (filled_in E mapper d). fold (created_row E st mapper d).
  fold row. fold started.
  destruct (res_bind _ _) as [pid|err].
  - rewrite update_eq. cbn [objs db cache trace]. unfold ret. moments.
    by rewrite <- !app_assoc.
  - destruct (Py.is_TypeError err); unfold bind, emit, ret; cbn [objs db cache trace];
      by rewrite <- !app_assoc.
Qed.

End Create.

Lemma created_row_status E st mapper d :
  Application.application_status (created_row E st mapper d) = NEW_APPLICATION_STATUS E.
Proof.
  unfold created_row, new_row, filled_in. simpl.
  rewrite !lookup_insert_ne by done. by rewrite lookup_insert_eq.
Qed.


(** C1.  A call without a supplied [process_instance_id] whose
    workflow-start step (the call to the engine, then the ["id"] of its
    answer) raises [err]: a [TypeError] is answered by the message, the
    error and [BAD_GATEWAY]; any other exception by the error, the
    message and [BAD_REQUEST].  In both cases the table is the former
    table followed by the row created for the call, which has no
    process instance, and the create is the only write the call makes:
    nothing is deleted or rolled back. *)
Theorem create_application_start_failure (E : Env) (data : nat) (token : string)
    (st : State) (d : dict) (form_id : pyval) (mapper : FormProcessMapper.t) (err : exn) :
  objs st !! data = Some d →
  d !! "form_id" = Some form_id →
  mapper_of_form E form_id = Ok mapper →
  d !! "process_instance_id" = None →
  start_outcome E token st mapper d = Raise err →
  ∃ st',
    create_application E data token st
    = (Ok (RVal
         (if Py.is_TypeError err
          then PTuple [ PDict (<["message" := PStr "Camunda workflow not able to create a task"]>
                                 (<["error" := PExc err]> ∅));
                        PStatus BAD_GATEWAY ]
          else PTuple [ PDict (<["systemErrors" := PExc err]>
                                 (<["message" := PStr "Camunda Process Mapper Key not provided"]> ∅));
                        PStatus BAD_REQUEST ])), st')
    ∧ db st' = db st ++ [created_row E st mapper d]
    ∧ Application.process_instance_id (created_row E st mapper d) = PNone
    ∧ filter is_write (trace st')
      = filter is_write (trace st) ++ [DbCreate (Application.id (created_row E st mapper d))].
Proof.
  intros Hd Hf Hm Hp Herr.
  rewrite (create_application_launched E data token st d Hd form_id mapper Hf Hm Hp).
  rewrite Herr.
  destruct (Py.is_TypeError err); eexists; (split; [reflexivity|]); cbn [db trace];
    (split; [done|]); (split; [done|]); by rewrite filter_app.
Qed.

(** The engine answers [K2] with no body: reading its ["id"] is a
    [TypeError]. *)
Lemma create_application_start_failure_witness :
  let st := Demo.state0 (Demo.request "F2") Demo.rows in
  let row :=
    created_row Demo.env st (FormProcessMapper.Build 2 (PStr "Expense claim") (PStr "K2"))
      (Demo.request "F2") in
  ∃ st',
    create_application Demo.env 0 "tok" st
    = (Ok (RVal (PTuple
         [ PDict (<["message" := PStr "Camunda workflow not able to create a task"]>
                    (<["error" := PExc (Exn TypeError "object is not subscriptable")]> ∅));
           PStatus BAD_GATEWAY ])), st')
    ∧ db st' = Demo.rows ++ [row]
    ∧ Application.process_instance_id row = PNone
    ∧ filter is_write (trace st') = filter is_write (trace st) ++ [DbCreate (Application.id row)].
Proof.
  intros st row.
  apply (create_application_start_failure Demo.env 0%nat "tok" st (Demo.request "F2")
           (PStr "F2") (FormProcessMapper.Build 2 (PStr "Expense claim") (PStr "K2"))
           (Exn TypeError "object is not subscriptable")); reflexivity.
Defined.

(** C4.  Whatever [application_status] the caller supplied, a call adds
    at most one row to the table, its status is the new-status constant,
    and a call that returns has added one.  When no
    [process_instance_id] was supplied and the engine answers with a
    record that has an ["id"], the call returns the row, the row is the
    one added to the table, and its process instance is that ["id"]. *)
Theorem create_application_status_and_instance (E : Env) (data : nat) (token : string)
    (st : State) (d : dict) (r : res retval) (st' : State) :
  objs st !! data = Some d →
  ids_bounded (db st) →
  create_application E data token st = (r, st') →
  (∃ new, db st' = db st ++ new
     ∧ (length new ≤ 1)%nat
     ∧ Forall (λ a, Application.application_status a = NEW_APPLICATION_STATUS E) new
     ∧ (returns r → length new = 1%nat))
  ∧ (∀ form_id mapper response pid,
       d !! "form_id" = Some form_id →
       mapper_of_form E form_id = Ok mapper →
       d !! "process_instance_id" = None →
       engine_start E (S (S (length (trace st)))) (FormProcessMapper.process_key mapper)
         (start_payload E (created_row E st mapper d)) token = Ok (PDict response) →
       response !! "id" = Some pid →
       ∃ a, r = Ok (RApp a)
         ∧ db st' = db st ++ [a]
         ∧ Application.process_instance_id a = pid
         ∧ Application.application_status a = NEW_APPLICATION_STATUS E).
Proof.
  intros Hd Hb Hrun.
  assert (∀ mapper pid now,
    replace_row (assign {[ "process_instance_id" := pid ]} now (created_row E st mapper d))
      (db st ++ [created_row E st mapper d])
    = db st ++ [assign {[ "process_instance_id" := pid ]} now (created_row E st mapper d)])
    as Hlast by (intros; by apply replace_row_last).
  split.
  - destruct (d !! "form_id") as [form_id|] eqn:Hf; cycle 1.
    { rewrite (create_application_no_form_id E data token st d Hd Hf) in Hrun.
      injection Hrun as <- <-. exists []. cbn [db]. rewrite app_nil_r.
      split; [done|]. split; [simpl; lia|]. split; [constructor|]. intros []. }
    destruct (mapper_of_form E form_id) as [mapper|err] eqn:Hm; cycle 1.
    { rewrite (create_application_no_mapper E data token st d Hd form_id err Hf Hm) in Hrun.
      injection Hrun as <- <-. exists []. cbn [db]. rewrite app_nil_r.
      split; [done|]. split; [simpl; lia|]. split; [constructor|]. intros []. }
    destruct (d !! "process_instance_id") as [pid|] eqn:Hp.
    { rewrite (create_application_supplied E data token st d Hd form_id mapper Hf Hm pid Hp)
        in Hrun. simpl in Hrun. injection Hrun as <- <-. cbn [db]. rewrite Hlast.
      eexists [_]. split; [done|]. split; [done|]. split; [|done].
      apply Forall_singleton. apply created_row_status. }
    rewrite (create_application_launched E data token st d Hd form_id mapper Hf Hm Hp) in Hrun.
    destruct (start_outcome E token st mapper d) as [pid|err].
    { simpl in Hrun. injection Hrun as <- <-. cbn [db]. rewrite Hlast.
      eexists [_]. split; [done|]. split; [done|]. split; [|done].
      apply Forall_singleton. apply created_row_status. }
    destruct (Py.is_TypeError err); simpl in Hrun; injection Hrun as <- <-; cbn [db];
      (eexists [_]; split; [done|]; split; [done|]; split; [|done];
       apply Forall_singleton; apply created_row_status).
  - intros form_id mapper response pid Hf Hm Hp Hengine Hid.
    rewrite (create_application_launched E data token st d Hd form_id mapper Hf Hm Hp) in Hrun.
    unfold start_outcome in Hrun. rewrite Hengine in Hrun. simpl in Hrun. rewrite Hid in Hrun.
    injection Hrun as <- <-. cbn [db]. rewrite Hlast.
    eexists. split; [done|]. split; [done|]. split; [done|]. apply created_row_status.
Qed.

Lemma demo_rows_bounded : ids_bounded Demo.rows.
Proof. unfold ids_bounded. repeat (constructor; [simpl; lia|]). constructor. Qed.

Lemma create_application_status_and_instance_witness :
  let st := Demo.state0 (Demo.request "F1") Demo.rows in
  let out := create_application Demo.env 0 "tok" st in
  (∃ new, db out.2 = db st ++ new
     ∧ (length new ≤ 1)%nat
     ∧ Forall (λ a, Application.application_status a = PStr "new") new
     ∧ (returns out.1 → length new = 1%nat))
  ∧ (∃ a, out.1 = Ok (RApp a)
       ∧ db out.2 = db st ++ [a]
       ∧ Application.process_instance_id a = PStr "proc-123"
       ∧ Application.application_status a = PStr "new").
Proof.
  intros st out.
  destruct (create_application_status_and_instance Demo.env 0%nat "tok" st (Demo.request "F1")
              out.1 out.2 eq_refl demo_rows_bounded (surjective_pairing out)) as [Hnew Hstarted].
  split; [exact Hnew|].
  apply (Hstarted (PStr "F1") (FormProcessMapper.Build 1 (PStr "Leave request") (PStr "K1"))
           {[ "id" := PStr "proc-123" ]} (PStr "proc-123")); reflexivity.
Defined.

(** C5.  A call whose map has a [process_instance_id] makes no
    workflow-start call, whatever its outcome; when the form resolves to
    a mapper, the call returns the created row, which is the one row
    added to the table and carries the supplied value unchanged, and the
    calls made are the mapper lookup, one create and one update. *)
Theorem create_application_supplied_instance (E : Env) (data : nat) (token : string)
    (st : State) (d : dict) (pid : pyval) (r : res retval) (st' : State) :
  objs st !! data = Some d →
  ids_bounded (db st) →
  d !! "process_instance_id" = Some pid →
  create_application E data token st = (r, st') →
  filter is_bpm (trace st') = filter is_bpm (trace st)
  ∧ (∀ form_id mapper,
       d !! "form_id" = Some form_id →
       mapper_of_form E form_id = Ok mapper →
       ∃ a, r = Ok (RApp a)
         ∧ Application.process_instance_id a = pid
         ∧ db st' = db st ++ [a]
         ∧ trace st'
           = trace st ++ [ MapperFind form_id; DbCreate (Application.id a);
                           DbUpdate (Application.id a) {[ "process_instance_id" := pid ]} ]).
Proof.
  intros Hd Hb Hp Hrun.
  destruct (d !! "form_id") as [form_id|] eqn:Hf; cycle 1.
  { rewrite (create_application_no_form_id E data token st d Hd Hf) in Hrun.
    apply pair_equal_spec in Hrun as [<- <-]. split; [done|]. by intros ? ? [=]. }
  destruct (mapper_of_form E form_id) as [mapper|err] eqn:Hm; cycle 1.
  { rewrite (create_application_no_mapper E data token st d Hd form_id err Hf Hm) in Hrun.
    apply pair_equal_spec in Hrun as [<- <-]. cbn [trace]. split.
    - rewrite filter_app. simpl. by rewrite app_nil_r.
    - intros ? ? [= <-]. by rewrite Hm. }
  rewrite (create_application_supplied E data token st d Hd form_id mapper Hf Hm pid Hp) in Hrun.
  apply pair_equal_spec in Hrun as [<- <-]. cbn [db trace]. split.
  - rewrite filter_app. simpl. by rewrite app_nil_r.
  - intros ? mapper' [= <-] Hm'. rewrite Hm in Hm'. injection Hm' as <-.
    eexists. split; [reflexivity|]. split; [done|]. split; [|done].
    by apply replace_row_last.
Qed.

Lemma create_application_supplied_instance_witness :
  let st := Demo.state0 (<["process_instance_id" := PStr "p7"]> (Demo.request "F3")) Demo.rows in
  let out := create_application Demo.env 0 "tok" st in
  filter is_bpm (trace out.2) = filter is_bpm (trace st)
  ∧ (∃ a, out.1 = Ok (RApp a)
       ∧ Application.process_instance_id a = PStr "p7"
       ∧ db out.2 = db st ++ [a]
       ∧ trace out.2
         = trace st ++ [ MapperFind (PStr "F3"); DbCreate (Application.id a);
                         DbUpdate (Application.id a) {[ "process_instance_id" := PStr "p7" ]} ]).
Proof.
  intros st out.
  destruct (create_application_supplied_instance Demo.env 0%nat "tok" st
              (<["process_instance_id" := PStr "p7"]> (Demo.request "F3")) (PStr "p7")
              out.1 out.2 eq_refl demo_rows_bounded eq_refl (surjective_pairing out))
    as [Hnone Hstored].
  split; [exact Hnone|].
  apply (Hstored (PStr "F3") (FormProcessMapper.Build 3 (PStr "Badge request") PNone));
    reflexivity.
Defined.

(** C9.  The caller's map is changed in place.  After any call, also one
    that raises, the object the caller passed holds the new-status
    constant under [application_status]; when the form resolves to a
    mapper, on every path (a supplied process instance, a started
    workflow, a failed start) the object is the caller's map with
    [application_status] overwritten and [form_process_mapper_id] and
    [application_name] set from that mapper.  No other object changes. *)
Theorem create_application_mutates_input (E : Env) (data : nat) (token : string)
    (st : State) (d : dict) (r : res retval) (st' : State) :
  objs st !! data = Some d →
  create_application E data token st = (r, st') →
  (∃ d', objs st' !! data = Some d'
     ∧ d' !! "application_status" = Some (NEW_APPLICATION_STATUS E))
  ∧ (∀ form_id mapper,
       d !! "form_id" = Some form_id →
       mapper_of_form E form_id = Ok mapper →
       objs st' !! data
       = Some (<["application_name" := FormProcessMapper.form_name mapper]>
                 (<["form_process_mapper_id" := PInt (FormProcessMapper.id mapper)]>
                    (<["application_status" := NEW_APPLICATION_STATUS E]> d))))
  ∧ (∀ other, other ≠ data → objs st' !! other = objs st !! other).
Proof.
  intros Hd Hrun.
  assert (∀ mapper, filled_in E mapper d !! "application_status"
                    = Some (NEW_APPLICATION_STATUS E)) as Hnew.
  { intros mapper. unfold filled_in. rewrite !lookup_insert_ne by done.
    apply lookup_insert_eq. }
  destruct (d !! "form_id") as [form_id|] eqn:Hf; cycle 1.
  { rewrite (create_application_no_form_id E data token st d Hd Hf) in Hrun.
    injection Hrun as <- <-. cbn [objs]. split; [|split].
    - eexists. split; [apply lookup_insert_eq|apply lookup_insert_eq].
    - intros ? ? [=].
    - intros other Hother. by rewrite lookup_insert_ne. }
  destruct (mapper_of_form E form_id) as [mapper|err] eqn:Hm; cycle 1.
  { rewrite (create_application_no_mapper E data token st d Hd form_id err Hf Hm) in Hrun.
    injection Hrun as <- <-. cbn [objs]. split; [|split].
    - eexists. split; [apply lookup_insert_eq|apply lookup_insert_eq].
    - intros ? ? [= <-]. by rewrite Hm.
    - intros other Hother. by rewrite lookup_insert_ne. }
  assert (objs st' = <[data := filled_in E mapper d]> (objs st)) as ->.
  { destruct (d !! "process_instance_id") as [pid|] eqn:Hp.
    - rewrite (create_application_supplied E data token st d Hd form_id mapper Hf Hm pid Hp)
        in Hrun. simpl in Hrun. by injection Hrun as <- <-.
    - rewrite (create_application_launched E data token st d Hd form_id mapper Hf Hm Hp)
        in Hrun.
      destruct (start_outcome E token st mapper d) as [pid|err];
        [|destruct (Py.is_TypeError err)]; simpl in Hrun; by injection Hrun as <- <-. }
  split; [|split].
  - eexists. split; [apply lookup_insert_eq|apply Hnew].
  - intros ? mapper' [= <-] Hm'. rewrite Hm in Hm'. injection Hm' as <-.
    apply lookup_insert_eq.
  - intros other Hother. by rewrite lookup_insert_ne.
Qed.

Lemma create_application_mutates_input_witness :
  let st := Demo.state0 (Demo.request "F1") Demo.rows in
  let out := create_application Demo.env 0 "tok" st in
  (∃ d', objs out.2 !! 0%nat = Some d' ∧ d' !! "application_status" = Some (PStr "new"))
  ∧ objs out.2 !! 0%nat
    = Some (<["application_name" := PStr "Leave request"]>
              (<["form_process_mapper_id" := PInt 1]>
                 (<["application_status" := PStr "new"]> (Demo.request "F1"))))
  ∧ (∀ other, other ≠ 0%nat → objs out.2 !! other = objs st !! other).
Proof.
  intros st out.
  destruct (create_application_mutates_input Demo.env 0%nat "tok" st (Demo.request "F1")
              out.1 out.2 eq_refl (surjective_pairing out)) as (Hstatus & Hfilled & Hframe).
  split; [exact Hstatus|]. split; [|exact Hframe].
  apply (Hfilled (PStr "F1") (FormProcessMapper.Build 1 (PStr "Leave request") (PStr "K1")));
    reflexivity.
Defined.

(** ** The cache of [get_authorised_form_list] *)

Lemma get_authorised_form_list_eq E token st :
  get_authorised_form_list E token st
  = match cache_get token (cache st) with
    | Some v =>
        (Ok v, mkState (objs st) (db st) ((token, v) :: cache_remove token (cache st)) (trace st))
    | None =>
        match provider_forms E (length (trace st)) token with
        | Ok v =>
            (Ok v,
             mkState (objs st) (db st)
               ((token, v) :: (if (32 <=? length (cache st))%nat
                               then removelast (cache st) else cache st))
               (trace st ++ [AuthFetch token]))
        | Raise err =>
            (Raise err, mkState (objs st) (db st) (cache st) (trace st ++ [AuthFetch token]))
        end
    end.
Proof.
  unfold get_authorised_form_list, lru_cache, bind at 1, get_state.
  destruct (cache_get token (cache st)) as [v|]; [done|].
  unfold BPMService_get_auth_form_details, bind, moment, get_state, ret, emit, lift, set_cache.
  cbn -[Nat.leb]. destruct (provider_forms E _ token) as [v|err]; [|done]. cbn -[Nat.leb].
  by destruct (32 <=? length (cache st))%nat.
Qed.

Lemma cache_get_None key c : cache_get key c = None ↔ key ∉ c.*1.
Proof.
  induction c as [|[k v] c IH]; simpl.
  - split; [intros _; apply not_elem_of_nil | done].
  - rewrite not_elem_of_cons. destruct (String.eqb_spec k key) as [->|Hne].
    + split; [done | intros [? _]; done].
    + rewrite IH. split; [intros; split; [congruence|done] | by intros [_ ?]].
Qed.


Lemma cache_get_head key v c : cache_get key ((key, v) :: c) = Some v.
Proof. simpl. by rewrite String.eqb_refl. Qed.


Lemma cache_remove_perm key c v :
  cache_get key c = Some v → (key, v) :: cache_remove key c ≡ₚ c.
Proof.
  induction c as [|[k x] c IH]; simpl; [done|].
  destruct (String.eqb_spec k key) as [->|Hne].
  - by intros [= ->].
  - intros H. rewrite Permutation_swap. by rewrite (IH H).
Qed.

Lemma cache_ok_hit key c v :
  cache_ok c → cache_get key c = Some v → cache_ok ((key, v) :: cache_remove key c).
Proof.
  intros [Hnd Hlen] Hget. pose proof (cache_remove_perm _ _ _ Hget) as Hp.
  split.
  - by rewrite Hp.
  - by rewrite Hp.
Qed.


Lemma elem_of_removelast {A} (x : A) (l : list A) : x ∈ removelast l → x ∈ l.
Proof.
  rewrite removelast_firstn_len. intros (i & Hi & _)%elem_of_take.
  by eapply list_elem_of_lookup_2.
Qed.

Lemma NoDup_removelast {A} (l : list A) : NoDup l → NoDup (removelast l).
Proof.
  rewrite removelast_firstn_len. intros H. eapply sublist_NoDup; [exact H|apply sublist_take].
Qed.

Lemma fmap_removelast {A B} (f : A → B) (l : list A) :
  f <$> removelast l = removelast (f <$> l).
Proof. by rewrite !removelast_firstn_len, fmap_take, length_fmap. Qed.

Lemma length_removelast {A} (l : list A) : length (removelast l) = pred (length l).
Proof. rewrite removelast_firstn_len, length_take. lia. Qed.

Lemma cache_ok_miss key c v :
  cache_ok c → cache_get key c = None →
  cache_ok ((key, v) :: (if (32 <=? length c)%nat then removelast c else c)).
Proof.
  intros [Hnd Hlen] Hget. apply cache_get_None in Hget.
  destruct (Nat.leb_spec 32 (length c)) as [Hfull|Hroom].
  - split.
    + rewrite fmap_cons, fmap_removelast. simpl. apply NoDup_cons. split.
      * intros Hin. apply Hget. by apply elem_of_removelast.
      * by apply NoDup_removelast.
    + simpl. rewrite length_removelast. lia.
  - split.
    + rewrite fmap_cons. simpl. by apply NoDup_cons.
    + simpl. lia.
Qed.



Lemma lift_ok {A B} (r : res A) (a : A) (k : A → M B) st :
  r = Ok a → bind (lift r) k st = k a st.
Proof. by intros ->. Qed.

Lemma query_eq {A} (operation : string) (q : table → kwargs → res A) args st :
  query operation q args st
  = (q (db st) args,
     mkState (objs st) (db st) (cache st) (trace st ++ [DbFind operation args])).
Proof. reflexivity. Qed.

Lemma filter_fetch_find t tr operation args :
  filter (is_fetch t) (tr ++ [DbFind operation args]) = filter (is_fetch t) tr.
Proof. rewrite filter_app. simpl. by rewrite app_nil_r. Qed.

(** Past the coercions, a read is the lookup of the credential followed
    by a continuation that answers fail-closed on a falsy result and
    otherwise only queries the repository. *)
Lemma perform_after_lookup E op :
  coercible op →
  ∃ k : pyval → M pyval,
    (∀ st, perform E op st = bind (get_authorised_form_list E (credential op)) k st)
    ∧ (∀ v st, Py.truthy v = false → k v st = (Ok (fail_closed op), st))
    ∧ (∀ v st r st', k v st = (r, st') →
         cache st' = cache st
         ∧ ∀ t, filter (is_fetch t) (trace st') = filter (is_fetch t) (trace st)).
Proof.
  destruct op as [token page_no limit order_by created_from created_to modified_from
                    modified_to application_id application_name application_status
                    created_by sort_order
                 | token page_no limit
                 | application_id token]; simpl.
  - intros (Hp & Hl & Ha).
    destruct (coerce_int page_no) as [page_no'|] eqn:Hp'; [|done].
    destruct (coerce_int limit) as [limit'|] eqn:Hl'; [|done].
    destruct (coerce_int application_id) as [application_id'|] eqn:Ha'; [|done].
    eexists. split; [|split].
    + intros st. unfold get_auth_applications_and_count.
      rewrite (lift_ok _ _ _ _ Hp'), (lift_ok _ _ _ _ Hl'), (lift_ok _ _ _ _ Ha').
      reflexivity.
    + intros v st Hv. cbv beta. by rewrite Hv.
    + intros v st r st'. cbv beta. destruct (Py.truthy v); cycle 1.
      { unfold ret. by intros [= <- <-]. }
      unfold bind at 1, collect_form_names, lift.
      destruct (res_bind (Py.iter v) _) as [form_names|err]; cycle 1.
      { by intros [= <- <-]. }
      unfold bind, Application_find_by_form_names. rewrite query_eq.
      destruct (q_find_by_form_names E _ _) as [[applications total]|err];
        unfold ret; intros [= <- <-]; cbn [cache trace];
        (split; [done|]; intros; apply filter_fetch_find).
  - intros (Hp & Hl).
    destruct (coerce_int page_no) as [page_no'|] eqn:Hp'; [|done].
    destruct (coerce_int limit) as [limit'|] eqn:Hl'; [|done].
    eexists. split; [|split].
    + intros st. unfold get_all_application_count.
      rewrite (lift_ok _ _ _ _ Hp'), (lift_ok _ _ _ _ Hl'). reflexivity.
    + intros v st Hv. cbv beta. by rewrite Hv.
    + intros v st r st'. cbv beta. destruct (Py.truthy v); cycle 1.
      { unfold ret. by intros [= <- <-]. }
      unfold bind at 1, collect_form_names, lift.
      destruct (res_bind (Py.iter v) _) as [form_names|err]; cycle 1.
      { by intros [= <- <-]. }
      unfold bind, Application_find_all_applications. rewrite query_eq.
      destruct (q_find_all_applications E _ _) as [applications|err];
        unfold ret; intros [= <- <-]; cbn [cache trace];
        (split; [done|]; intros; apply filter_fetch_find).
  - intros _. eexists. split; [|split].
    + intros st. reflexivity.
    + intros v st Hv. cbv beta. by rewrite Hv.
    + intros v st r st'. cbv beta. destruct (Py.truthy v); cycle 1.
      { unfold ret. by intros [= <- <-]. }
      unfold bind at 1, collect_form_names, lift.
      destruct (res_bind (Py.iter v) _) as [form_names|err]; cycle 1.
      { by intros [= <- <-]. }
      unfold bind, Application_find_id_by_form_names. rewrite query_eq.
      destruct (q_find_id_by_form_names E _ _) as [application|err];
        unfold ret; intros [= <- <-]; cbn [cache trace];
        (split; [done|]; intros; apply filter_fetch_find).
Qed.

Lemma cache_get_middle t v front back :
  t ∉ front.*1 → cache_get t (front ++ (t, v) :: back) = Some v.
Proof.
  induction front as [|[k x] front IH]; simpl.
  - intros _. by rewrite String.eqb_refl.
  - intros [Hne Hin]%not_elem_of_cons. destruct (String.eqb_spec k t); [congruence|auto].
Qed.

Lemma cache_remove_middle u t v front back :
  u ≠ t →
  ∃ front' back', cache_remove u (front ++ (t, v) :: back) = front' ++ (t, v) :: back'
    ∧ front'.*1 ⊆ front.*1.
Proof.
  intros Hne. induction front as [|[k x] front (front' & back' & IH & Hsub)]; simpl.
  - destruct (String.eqb_spec t u); [congruence|].
    by exists [], (cache_remove u back).
  - destruct (String.eqb_spec k u).
    + exists front, back. split; [done|]. set_solver.
    + exists ((k, x) :: front'), back'. rewrite IH. split; [done|].
      rewrite !fmap_cons. set_solver.
Qed.

Lemma removelast_middle {A} (front : list A) x back :
  back ≠ [] → removelast (front ++ x :: back) = front ++ x :: removelast back.
Proof.
  intros Hb. rewrite removelast_app by done. f_equal.
  destruct back; [done|]. reflexivity.
Qed.

Lemma retained_NoDup t v S c :
  NoDup c.*1 → retained t v S c → cache_get t c = Some v.
Proof.
  intros Hnd (front & back & -> & _). apply cache_get_middle.
  rewrite fmap_app in Hnd. apply NoDup_app in Hnd as (_ & Hdisj & _).
  intros Hin. apply (Hdisj t Hin). simpl. apply list_elem_of_here.
Qed.

Lemma retained_mono t v S S' c : S' ⊆ S → retained t v S c → retained t v S' c.
Proof.
  intros Hsub (front & back & -> & Hsize). exists front, back. split; [done|].
  eapply Nat.le_lt_trans; [|exact Hsize]. apply subseteq_size. set_solver.
Qed.

Lemma lookup_retains E t v S u st x st1 :
  cache_ok (cache st) →
  retained t v ({[u]} ∪ S) (cache st) →
  u ≠ t →
  get_authorised_form_list E u st = (x, st1) →
  cache_ok (cache st1)
  ∧ retained t v S (cache st1)
  ∧ filter (is_fetch t) (trace st1) = filter (is_fetch t) (trace st).
Proof.
  intros Hok Hret Hne Hrun. rewrite get_authorised_form_list_eq in Hrun.
  assert (filter (is_fetch t) (trace st ++ [AuthFetch u]) = filter (is_fetch t) (trace st))
    as Hfetch.
  { rewrite filter_app, filter_cons_False, filter_nil, app_nil_r; [done|].
    simpl. destruct (String.eqb_spec u t); [done|]. by intros []. }
  destruct (cache_get u (cache st)) as [y|] eqn:Hget.
  - apply pair_equal_spec in Hrun as [<- <-]. cbn [cache trace].
    split; [by apply cache_ok_hit|]. split; [|done].
    destruct Hret as (front & back & Hc & Hsize). rewrite Hc.
    destruct (cache_remove_middle u t v front back Hne) as (front' & back' & -> & Hsub).
    exists ((u, y) :: front'), back'. split; [done|].
    eapply Nat.le_lt_trans; [|exact Hsize]. apply subseteq_size.
    rewrite fmap_cons. simpl. set_solver.
  - destruct (provider_forms E (length (trace st)) u) as [y|err];
      apply pair_equal_spec in Hrun as [<- <-]; cbn [cache trace]; cycle 1.
    { split; [done|]. split; [|done]. eapply retained_mono; [|exact Hret]. set_solver. }
    split; [by apply cache_ok_miss|]. split; [|done].
    destruct Hret as (front & back & Hc & Hsize).
    destruct (Nat.leb_spec 32 (length (cache st))) as [Hfull|Hroom]; cycle 1.
    { exists ((u, y) :: front), back. rewrite Hc. split; [done|].
      eapply Nat.le_lt_trans; [|exact Hsize]. apply subseteq_size.
      rewrite fmap_cons. simpl. set_solver. }
    destruct Hok as [Hnd Hlen]. rewrite Hc in *.
    destruct (decide (back = [])) as [->|Hback].
    + exfalso. apply cache_get_None in Hget.
      rewrite fmap_app in Hnd, Hget. apply NoDup_app in Hnd as (Hfront & _ & _).
      rewrite length_app in Hfull, Hlen. simpl in Hfull, Hlen.
      assert (size (list_to_set (C := gset string) ((u, y) :: front).*1) = 32%nat) as Hsz.
      { rewrite size_list_to_set.
        - rewrite length_fmap. simpl. lia.
        - rewrite fmap_cons. simpl. apply NoDup_cons. split; [|done].
          intros Hin. apply Hget. apply elem_of_app. by left. }
      assert (size (list_to_set (C := gset string) ((u, y) :: front).*1)
              ≤ size (list_to_set front.*1 ∪ ({[u]} ∪ S)))%nat as Hle.
      { apply subseteq_size. rewrite fmap_cons. simpl. set_solver. }
      lia.
    + exists ((u, y) :: front), (removelast back). rewrite removelast_middle by done.
      split; [done|].
      eapply Nat.le_lt_trans; [|exact Hsize]. apply subseteq_size.
      rewrite fmap_cons. simpl. set_solver.
Qed.

Lemma lookup_hit_retains E t v S st x st1 :
  cache_ok (cache st) →
  retained t v S (cache st) →
  get_authorised_form_list E t st = (x, st1) →
  x = Ok v
  ∧ cache_ok (cache st1)
  ∧ retained t v S (cache st1)
  ∧ trace st1 = trace st.
Proof.
  intros Hok Hret Hrun. rewrite get_authorised_form_list_eq in Hrun.
  pose proof (retained_NoDup t v S _ (proj1 Hok) Hret) as Hget. rewrite Hget in Hrun.
  apply pair_equal_spec in Hrun as [<- <-]. cbn [cache trace].
  split; [done|]. split; [by apply cache_ok_hit|]. split; [|done].
  destruct Hret as (front & back & _ & Hsize).
  exists [], (cache_remove t (cache st)). split; [done|].
  eapply Nat.le_lt_trans; [|exact Hsize]. apply subseteq_size. set_solver.
Qed.

Lemma lookup_first E t st0 v st :
  cache_ok (cache st0) →
  get_authorised_form_list E t st0 = (Ok v, st) →
  cache_ok (cache st) ∧ ∃ back, cache st = (t, v) :: back.
Proof.
  intros Hok Hrun. rewrite get_authorised_form_list_eq in Hrun.
  destruct (cache_get t (cache st0)) as [y|] eqn:Hget.
  - apply pair_equal_spec in Hrun as [[= <-] <-]. cbn [cache].
    split; [by apply cache_ok_hit|by eexists].
  - destruct (provider_forms E (length (trace st0)) t) as [y|err];
      apply pair_equal_spec in Hrun as [[=] <-]. subst y. cbn [cache].
    split; [by apply cache_ok_miss|by eexists].
Qed.

(** A request whose pagination or numeric filter cannot be read as an
    integer raises before the lookup and leaves the state as it is. *)
Lemma perform_rejected E op :
  coercible op ∨ (¬ coercible op ∧ ∃ e, ∀ st, perform E op st = (Raise e, st)).
Proof.
  destruct op as [token page_no limit order_by created_from created_to modified_from
                    modified_to application_id application_name application_status
                    created_by sort_order
                 | token page_no limit
                 | application_id token]; simpl; [| |by left].
  - unfold get_auth_applications_and_count.
    destruct (coerce_int page_no) as [?|e]; [|right; split; [by intros [[] _]|by exists e]].
    destruct (coerce_int limit) as [?|e]; [|right; split; [by intros (_ & [] & _)|by exists e]].
    destruct (coerce_int application_id) as [?|e];
      [by left|right; split; [by intros (_ & _ & [])|by exists e]].
  - unfold get_all_application_count.
    destruct (coerce_int page_no) as [?|e]; [|right; split; [by intros [[] _]|by exists e]].
    destruct (coerce_int limit) as [?|e];
      [by left|right; split; [by intros [_ []]|by exists e]].
Qed.

Lemma others_cons t op ops :
  others t (op :: ops)
  = if decide (credential op = t) then others t ops else {[credential op]} ∪ others t ops.
Proof.
  unfold others. rewrite fmap_cons. destruct (decide (credential op = t)) as [Heq|Hne].
  - by rewrite filter_cons_False by (intros ?; done).
  - by rewrite filter_cons_True, list_to_set_cons by done.
Qed.

Lemma serve_retains E t v ops : ∀ st rs st',
  Py.truthy v = false →
  cache_ok (cache st) →
  retained t v (others t ops) (cache st) →
  serve E ops st = (rs, st') →
  Forall2 (λ op r, credential op = t → coercible op → r = Ok (fail_closed op)) ops rs
  ∧ filter (is_fetch t) (trace st') = filter (is_fetch t) (trace st)
  ∧ cache_get t (cache st') = Some v.
Proof.
  induction ops as [|op ops IH]; intros st rs st' Hv Hok Hret Hrun.
  - simpl in Hrun. apply pair_equal_spec in Hrun as [<- <-].
    split; [constructor|]. split; [done|]. by eapply retained_NoDup; [apply Hok|].
  - simpl in Hrun.
    destruct (perform E op st) as [r st1] eqn:Hperform.
    destruct (serve E ops st1) as [rs' st2] eqn:Hserve.
    apply pair_equal_spec in Hrun as [<- <-].
    assert (others t ops ⊆ others t (op :: ops)) as Hsub.
    { rewrite others_cons. destruct (decide (credential op = t)); set_solver. }
    destruct (perform_rejected E op) as [Hop|(Hbad & e & Hraise)]; cycle 1.
    { rewrite Hraise in Hperform. apply pair_equal_spec in Hperform as [<- <-].
      destruct (IH st rs' st2 Hv Hok (retained_mono _ _ _ _ _ Hsub Hret) Hserve)
        as (Hall & Hfetch & Hget).
      split; [constructor; [done|done]|done]. }
    destruct (perform_after_lookup E op Hop) as (k & Hsplit & Hfalsy & Hframe).
    rewrite Hsplit in Hperform. unfold bind in Hperform.
    destruct (get_authorised_form_list E (credential op) st) as [x st_mid] eqn:Hlookup.
    rewrite others_cons in Hret.
    destruct (decide (credential op = t)) as [Heq|Hne].
    + rewrite Heq in Hlookup.
      destruct (lookup_hit_retains E t v _ st x st_mid Hok Hret Hlookup)
        as (-> & Hok' & Hret' & Htrace).
      rewrite (Hfalsy v st_mid Hv) in Hperform.
      apply pair_equal_spec in Hperform as [<- <-].
      destruct (IH st_mid rs' st2 Hv Hok' Hret' Hserve) as (Hall & Hfetch & Hget).
      split; [by constructor|]. split; [by rewrite Hfetch, Htrace|done].
    + destruct (lookup_retains E t v _ (credential op) st x st_mid Hok Hret Hne Hlookup)
        as (Hok' & Hret' & Htrace).
      assert (cache st1 = cache st_mid
              ∧ filter (is_fetch t) (trace st1) = filter (is_fetch t) (trace st_mid))
        as [Hcache Htrace'].
      { destruct x as [a|err].
        - destruct (Hframe _ _ _ _ Hperform) as [? ?]. auto.
        - by apply pair_equal_spec in Hperform as [_ <-]. }
      rewrite <- Hcache in Hok', Hret'.
      destruct (IH st1 rs' st2 Hv Hok' Hret' Hserve) as (Hall & Hfetch & Hget).
      split; [constructor; [done|done]|]. split; [|done].
      by rewrite Hfetch, Htrace', Htrace.
Qed.

(** C10.  Every result of the provider is memoised, a falsy one
    included.  Let the first lookup of [t] return a falsy [v], and let
    any requests to the authorisation-scoped reads follow, for any
    credentials, of which fewer than 32 differ from [t]: each request
    for [t] (whose numeric inputs can be read as integers) gets the
    fail-closed answer (no records and the count 0, or the empty record
    with [FORBIDDEN]), the provider is not asked about [t] again, and
    [t] is still in the cache with [v]. *)
Theorem falsy_lookup_is_retained (E : Env) (t : string) (st0 st : State) (v : pyval)
    (ops : list auth_read) (rs : list (res pyval)) (st' : State) :
  cache_ok (cache st0) →
  get_authorised_form_list E t st0 = (Ok v, st) →
  Py.truthy v = false →
  (size (others t ops) < 32)%nat →
  serve E ops st = (rs, st') →
  Forall2 (λ op r, credential op = t → coercible op → r = Ok (fail_closed op)) ops rs
  ∧ filter (is_fetch t) (trace st') = filter (is_fetch t) (trace st)
  ∧ cache_get t (cache st') = Some v.
Proof.
  intros Hok Hfirst Hv Hsize Hrun.
  destruct (lookup_first E t st0 v st Hok Hfirst) as (Hok' & back & Hc).
  eapply serve_retains; try done.
  exists [], back. split; [done|].
  eapply Nat.le_lt_trans; [|exact Hsize]. apply subseteq_size. set_solver.
Qed.

(** C2.  When the lookup of the credential yields a falsy result (an
    empty list, [None]), each of the three authorisation-scoped reads
    returns its empty answer: no records and the count 0, and for the
    lookup of one application the empty record with [FORBIDDEN].  The
    state is the one the lookup left, and no find operation of the
    repository is called. *)
Theorem empty_authorisation_fails_closed (E : Env) (token : string) (st st1 : State)
    (v : pyval)
    (page_no limit order_by created_from created_to modified_from modified_to
     application_id application_name application_status created_by sort_order : pyval) :
  get_authorised_form_list E token st = (Ok v, st1) →
  Py.truthy v = false →
  returns (coerce_int page_no) →
  returns (coerce_int limit) →
  returns (coerce_int application_id) →
  get_auth_applications_and_count E token page_no limit order_by created_from created_to
    modified_from modified_to application_id application_name application_status created_by
    sort_order st
  = (Ok (PTuple [PList []; PInt 0]), st1)
  ∧ get_all_application_count E token page_no limit st = (Ok (PTuple [PList []; PInt 0]), st1)
  ∧ get_auth_by_application_id E application_id token st
    = (Ok (PTuple [PDict ∅; PStatus FORBIDDEN]), st1)
  ∧ filter is_find (trace st1) = filter is_find (trace st).
Proof.
  intros Hlookup Hv Hp Hl Ha.
  assert (∀ op, coercible op → credential op = token →
            perform E op st = (Ok (fail_closed op), st1)) as Hop.
  { intros op Hco Hcred. destruct (perform_after_lookup E op Hco) as (k & Hsplit & Hfalsy & _).
    rewrite Hsplit, Hcred. unfold bind. rewrite Hlookup. by apply Hfalsy. }
  split; [|split; [|split]].
  - by apply (Hop (ApplicationsAndCount token page_no limit order_by created_from created_to
                 modified_from modified_to application_id application_name application_status
                 created_by sort_order)).
  - by apply (Hop (ApplicationCount token page_no limit)).
  - by apply (Hop (ByApplicationId application_id token)).
  - rewrite get_authorised_form_list_eq in Hlookup.
    destruct (cache_get token (cache st)).
    + by apply pair_equal_spec in Hlookup as [_ <-].
    + destruct (provider_forms E _ token); apply pair_equal_spec in Hlookup as [_ <-];
        cbn [trace]; rewrite filter_app; simpl; by rewrite app_nil_r.
Qed.



(** [bob] is authorised for no form; requests for [bob] and [alice] follow. *)
Lemma falsy_lookup_is_retained_witness :
  let st0 := Demo.state0 ∅ Demo.rows in
  let st := (get_authorised_form_list Demo.env "bob" st0).2 in
  let ops := [ ByApplicationId (PInt 2) "bob";
               ApplicationCount "alice" (PStr "1") (PInt 2);
               ApplicationsAndCount "bob" PNone PNone PNone PNone PNone PNone PNone
                 (PInt 2) PNone PNone PNone PNone;
               ApplicationCount "bob" PNone PNone ] in
  let out := serve Demo.env ops st in
  Forall2 (λ op r, credential op = "bob" → coercible op → r = Ok (fail_closed op)) ops out.1
  ∧ filter (is_fetch "bob") (trace out.2) = filter (is_fetch "bob") (trace st)
  ∧ cache_get "bob" (cache out.2) = Some (PList []).
Proof.
  intros st0 st ops out.
  apply (falsy_lookup_is_retained Demo.env "bob" st0 st (PList []) ops out.1 out.2).
  - split; [constructor|simpl; lia].
  - reflexivity.
  - reflexivity.
  - apply Nat.ltb_lt. vm_compute. reflexivity.
  - apply surjective_pairing.
Defined.

Lemma empty_authorisation_fails_closed_witness :
  let st := Demo.state0 ∅ Demo.rows in
  let st1 := (get_authorised_form_list Demo.env "bob" st).2 in
  get_auth_applications_and_count Demo.env "bob" (PStr "1") (PInt 2) PNone PNone PNone PNone
    PNone (PInt 2) PNone PNone PNone PNone st
  = (Ok (PTuple [PList []; PInt 0]), st1)
  ∧ get_all_application_count Demo.env "bob" (PStr "1") (PInt 2) st
    = (Ok (PTuple [PList []; PInt 0]), st1)
  ∧ get_auth_by_application_id Demo.env (PInt 2) "bob" st
    = (Ok (PTuple [PDict ∅; PStatus FORBIDDEN]), st1)
  ∧ filter is_find (trace st1) = filter is_find (trace st).
Proof.
  intros st st1.
  apply (empty_authorisation_fails_closed Demo.env "bob" st st1 (PList [])); try reflexivity;
    exact I.
Defined.
(** After 33 credentials the cache holds the last 32, the latest first. *)
Example thirty_third_evicts_first :
  (cache (Demo.lookups (Demo.tokens 33) (Demo.state0 ∅ []))).*1 = rev (tail (Demo.tokens 33)).
Proof. vm_compute. reflexivity. Qed.

(** ** [apply_attributes] *)

Import ApplicationSchemaWrapper.

Lemma substring_length_le s : ∀ n m,
  (String.length (String.substring n m s) ≤ String.length s - n)%nat.
Proof.
  induction s as [|c s IH]; intros [|n] [|m]; simpl; try lia.
  - specialize (IH 0%nat m). lia.
  - apply IH.
  - apply IH.
Qed.


Lemma substring_skip_add a : ∀ b n m,
  String.substring (String.length a + n) m (a +:+ b) = String.substring n m b.
Proof. induction a as [|c a IH]; intros b n m; simpl; [done|apply IH]. Qed.

Lemma substring_prefix a : ∀ b,
  String.substring 0 (String.length a) (a +:+ b) = a.
Proof.
  induction a as [|c a IH]; intros b; simpl.
  - by destruct b.
  - by rewrite IH.
Qed.

Lemma substring_all s : String.substring 0 (String.length s) s = s.
Proof. induction s as [|c s IH]; simpl; [done|by rewrite IH]. Qed.

Lemma length_append a b : String.length (a +:+ b) = (String.length a + String.length b)%nat.
Proof. induction a as [|c a IH]; simpl; [done|by rewrite IH]. Qed.

Lemma index_bound sub s i :
  String.index 0 sub s = Some i → (i + String.length sub ≤ String.length s)%nat.
Proof.
  intros H. pose proof (String.index_correct1 _ _ _ _ H) as Hsub.
  pose proof (substring_length_le s i (String.length sub)) as Hle.
  rewrite Hsub in Hle.
  destruct (decide (String.length sub = 0%nat)) as [Hz|Hnz]; [|lia].
  (* an empty needle *)
  destruct sub; [|done]. simpl.
  destruct s; simpl in H.
  - by injection H as <-.
  - by injection H as <-.
Qed.

Lemma slice_nat s (a b : nat) :
  (a ≤ String.length s)%nat → (b ≤ String.length s)%nat →
  Py.slice s (Z.of_nat a) (Z.of_nat b) = String.substring a (b - a) s.
Proof.
  intros Ha Hb. unfold Py.slice, Py.bound, Py.len.
  destruct (Z.ltb_spec (Z.of_nat a) 0); [lia|]. destruct (Z.ltb_spec (Z.of_nat b) 0); [lia|].
  rewrite !Z.min_l by lia. rewrite Nat2Z.id. f_equal. lia.
Qed.

Lemma apply_attributes_eq application st d u :
  objs st !! application = Some d →
  d !! "formUrl" = Some (PStr u) →
  let d' :=
    <["submissionId" := PStr (Py.slice u (Py.find u "/submission/" + 12) (Py.len u))]>
      (<["formId" := PStr (Py.slice u (Py.find u "/form/" + 6) (Py.find u "/submission/"))]> d) in
  apply_attributes application st
  = (Ok (PDict d'), mkState (<[application := d']> (objs st)) (db st) (cache st) (trace st)).
Proof.
  intros Hd Hu d'. unfold apply_attributes, try_except_KeyError, try_except. cbv beta.
  rewrite (bind_ok _ _ _ _ _ (getitem_eq _ _ _ _ _ Hd Hu)).
  erewrite bind_ok; [|apply setitem_eq; eauto]. cbn [objs db cache trace].
  erewrite bind_ok; [|apply setitem_eq; apply lookup_insert_eq]. cbn [objs db cache trace].
  rewrite insert_insert_eq.
  erewrite bind_ok; [|apply deref_eq; apply lookup_insert_eq]. done.
Qed.

(** C8.  [apply_attributes] on a record with a [formUrl] in which
    ["/form/"] first occurs at [i] and ["/submission/"] first occurs at
    [j]: [formId] is set to the text from the end of ["/form/"] up to
    the start of ["/submission/"], and [submissionId] to the text after
    ["/submission/"]; for a URL of the shape
    [pre/form/<form_id>/submission/<submission_id>] these are [form_id]
    and [submission_id].  The record is changed in place and returned.
    On a record without [formUrl] the helper returns the message with
    [BAD_REQUEST], raises nothing and leaves the record as it is. *)
Theorem apply_attributes_extracts_ids (application : nat) (st : State) (d : dict) :
  objs st !! application = Some d →
  (∀ u i j,
     d !! "formUrl" = Some (PStr u) →
     String.index 0 "/form/" u = Some i →
     String.index 0 "/submission/" u = Some j →
     let d' :=
       <["submissionId" := PStr (String.substring (j + 12) (String.length u - (j + 12)) u)]>
         (<["formId" := PStr (String.substring (i + 6) (j - (i + 6)) u)]> d) in
     apply_attributes application st
     = (Ok (PDict d'), mkState (<[application := d']> (objs st)) (db st) (cache st) (trace st)))
  ∧ (∀ pre form_id submission_id,
       let u := pre +:+ "/form/" +:+ form_id +:+ "/submission/" +:+ submission_id in
       d !! "formUrl" = Some (PStr u) →
       String.index 0 "/form/" u = Some (String.length pre) →
       String.index 0 "/submission/" u = Some (String.length pre + 6 + String.length form_id)%nat →
       let d' := <["submissionId" := PStr submission_id]> (<["formId" := PStr form_id]> d) in
       apply_attributes application st
       = (Ok (PDict d'), mkState (<[application := d']> (objs st)) (db st) (cache st) (trace st)))
  ∧ (d !! "formUrl" = None →
       apply_attributes application st
       = (Ok (PTuple [ PStr "The required fields of Input request are not passed";
                       PStatus BAD_REQUEST ]), st)).
Proof.
  intros Hd.
  assert (∀ u i j,
     d !! "formUrl" = Some (PStr u) →
     String.index 0 "/form/" u = Some i →
     String.index 0 "/submission/" u = Some j →
     let d' :=
       <["submissionId" := PStr (String.substring (j + 12) (String.length u - (j + 12)) u)]>
         (<["formId" := PStr (String.substring (i + 6) (j - (i + 6)) u)]> d) in
     apply_attributes application st
     = (Ok (PDict d'), mkState (<[application := d']> (objs st)) (db st) (cache st) (trace st)))
    as Hindex.
  { intros u i j Hu Hi Hj d'. rewrite (apply_attributes_eq application st d u Hd Hu).
    unfold Py.find, Py.len. rewrite Hi, Hj.
    pose proof (index_bound _ _ _ Hi) as Hi'. pose proof (index_bound _ _ _ Hj) as Hj'.
    simpl in Hi', Hj'.
    replace (Z.of_nat i + 6) with (Z.of_nat (i + 6)) by lia.
    replace (Z.of_nat j + 12) with (Z.of_nat (j + 12)) by lia.
    rewrite !slice_nat by lia. done. }
  split; [exact Hindex|]. split.
  - intros pre form_id submission_id u Hu Hi Hj d'.
    rewrite (Hindex u _ _ Hu Hi Hj). subst d'.
    assert (String.substring (String.length pre + 6)
              (String.length pre + 6 + String.length form_id - (String.length pre + 6)) u
            = form_id) as ->.
    { replace (String.length pre + 6 + String.length form_id - (String.length pre + 6))%nat
        with (String.length form_id) by lia.
      subst u. rewrite substring_skip_add.
      change 6%nat with (String.length "/form/" + 0)%nat.
      rewrite substring_skip_add. apply substring_prefix. }
    assert (String.substring (String.length pre + 6 + String.length form_id + 12)
              (String.length u - (String.length pre + 6 + String.length form_id + 12)) u
            = submission_id) as ->.
    { subst u. rewrite !length_append. simpl String.length.
      replace (String.length pre + (6 + (String.length form_id
                 + (12 + String.length submission_id)))
               - (String.length pre + 6 + String.length form_id + 12))%nat
        with (String.length submission_id) by lia.
      rewrite <- !Nat.add_assoc. rewrite substring_skip_add.
      change (6 + (String.length form_id + 12))%nat
        with (String.length "/form/" + (String.length form_id + 12))%nat.
      rewrite substring_skip_add, substring_skip_add.
      change 12%nat with (String.length "/submission/" + 0)%nat.
      rewrite substring_skip_add. apply substring_all. }
    done.
  - intros Hu. unfold apply_attributes, try_except_KeyError, try_except. cbv beta.
    rewrite (bind_raise _ _ _ _ _ (getitem_missing _ _ _ _ Hd Hu)). done.
Qed.

Lemma apply_attributes_extracts_ids_witness :
  (let d : dict := {[ "formUrl" := PStr "http://host/form/f1/submission/s9" ]} in
   let d' := <["submissionId" := PStr "s9"]> (<["formId" := PStr "f1"]> d) in
   apply_attributes 0 (Demo.state0 d [])
   = (Ok (PDict d'), mkState (<[0%nat := d']> {[ 0%nat := d ]}) [] [] []))
  ∧ apply_attributes 0 (Demo.state0 {[ "id" := PInt 4 ]} [])
    = (Ok (PTuple [ PStr "The required fields of Input request are not passed";
                    PStatus BAD_REQUEST ]), Demo.state0 {[ "id" := PInt 4 ]} []).
Proof.
  split.
  - apply (proj1 (proj2 (apply_attributes_extracts_ids 0%nat
             (Demo.state0 {[ "formUrl" := PStr "http://host/form/f1/submission/s9" ]} [])
             {[ "formUrl" := PStr "http://host/form/f1/submission/s9" ]} eq_refl))
           "http://host" "f1" "s9"); reflexivity.
  - apply (proj2 (proj2 (apply_attributes_extracts_ids 0%nat
             (Demo.state0 {[ "id" := PInt 4 ]} []) {[ "id" := PInt 4 ]} eq_refl))).
    reflexivity.
Defined.

(** The string scraping is kept as it is: without the two literals
    [find] yields -1 and the slices take whatever these offsets give. *)
Example apply_attributes_without_literals :
  (apply_attributes 0 (Demo.state0 {[ "formUrl" := PStr "http://host/abcdefgh" ]} [])).1
  = Ok (PDict (<["submissionId" := PStr "/abcdefgh"]>
                 (<["formId" := PStr "//host/abcdefg"]>
                    {[ "formUrl" := PStr "http://host/abcdefgh" ]}))).
Proof. reflexivity. Qed.

(** Only the missing key is caught: a [formUrl] that is not a string has
    no [find], and that error goes on to the caller. *)
Example apply_attributes_null_url :
  apply_attributes 0 (Demo.state0 {[ "formUrl" := PNone ]} [])
  = (Raise (Exn AttributeError "object has no attribute 'find'"),
     Demo.state0 {[ "formUrl" := PNone ]} []).
Proof. reflexivity. Qed.

(** ** The read operations: coercion of the filters *)

Lemma coerce_int_falsy v : Py.truthy v = false → coerce_int v = Ok v.
Proof. intros H. unfold coerce_int. by rewrite H. Qed.

Lemma coerce_str_falsy E v : Py.truthy v = false → coerce_str E v = v.
Proof. intros H. unfold coerce_str. by rewrite H. Qed.

Lemma coerce_int_int z : coerce_int (PInt z) = Ok (PInt z).
Proof. unfold coerce_int. simpl. by destruct (z =? 0). Qed.


Lemma coerce_str_str E s : coerce_str E (PStr s) = PStr s.
Proof. unfold coerce_str. by destruct (Py.truthy (PStr s)). Qed.























Section Coercion.
Context (E : Env) (token : string) (st : State).
Context (user_id created_from created_to modified_from modified_to : pyval).
Context (page_no limit application_id order_by sort_order created_by application_status
         application_name : pyval).
Context (page_no' limit' application_id' order_by' sort_order' created_by' application_status'
         application_name' : pyval).


End Coercion.



(** ** The read operations: what they return *)

Section Shapes.
Context (E : Env) (token : string) (st : State).
Context (user_id form_id created_from created_to modified_from modified_to : pyval).
Context (page_no limit application_id order_by sort_order created_by application_status
         application_name : pyval).


End Shapes.



(** * Further properties of the code *)

(** ** [apply_attributes], case by case, and [apply_custom_attributes] *)

Lemma apply_attributes_run application st d :
  objs st !! application = Some d →
  apply_attributes application st
  = match d !! "formUrl" with
    | Some (PStr _) =>
        (Ok (PDict (with_ids d)),
         mkState (<[application := with_ids d]> (objs st)) (db st) (cache st) (trace st))
    | Some _ => (Raise (Exn AttributeError "object has no attribute 'find'"), st)
    | None =>
        (Ok (PTuple [ PStr "The required fields of Input request are not passed";
                      PStatus BAD_REQUEST ]), st)
    end.
Proof.
  intros Hd. destruct (d !! "formUrl") as [v|] eqn:Hu.
  - destruct v as [| | |u| | | | |];
      try (unfold apply_attributes, try_except_KeyError, try_except; cbv beta;
           by rewrite (bind_ok _ _ _ _ _ (getitem_eq _ _ _ _ _ Hd Hu))).
    rewrite (apply_attributes_eq application st d u Hd Hu). unfold with_ids. by rewrite Hu.
  - unfold apply_attributes, try_except_KeyError, try_except. cbv beta.
    by rewrite (bind_raise _ _ _ _ _ (getitem_missing _ _ _ _ Hd Hu)).
Qed.

Lemma apply_attributes_no_object application st :
  objs st !! application = None →
  apply_attributes application st
  = (Ok (PTuple [ PStr "The required fields of Input request are not passed";
                  PStatus BAD_REQUEST ]), st).
Proof.
  intros Hd. unfold apply_attributes, try_except_KeyError, try_except, getitem, deref, bind,
    get_state, ret, lift. cbv beta. rewrite Hd. reflexivity.
Qed.

Lemma with_ids_formUrl d : with_ids d !! "formUrl" = d !! "formUrl".
Proof.
  unfold with_ids. destruct (d !! "formUrl") as [[| | |u| | | | |]|] eqn:Hu; try done.
  by rewrite !lookup_insert_ne.
Qed.

Lemma with_ids_idemp d : with_ids (with_ids d) = with_ids d.
Proof.
  unfold with_ids at 1. rewrite with_ids_formUrl.
  destruct (d !! "formUrl") as [[| | |u| | | | |]|] eqn:Hu; try done.
  unfold with_ids. rewrite Hu. apply map_eq. intros k.
  destruct (decide (k = "submissionId"%string)) as [->|Hs]; [by rewrite !lookup_insert_eq|].
  destruct (decide (k = "formId"%string)) as [->|Hf];
    repeat (rewrite lookup_insert_eq || rewrite lookup_insert_ne by done); done.
Qed.

Lemma with_ids_other d k :
  k ≠ "formId"%string → k ≠ "submissionId"%string → with_ids d !! k = d !! k.
Proof.
  intros Hf Hs. unfold with_ids.
  destruct (d !! "formUrl") as [[| | |u| | | | |]|]; try done.
  by rewrite !lookup_insert_ne.
Qed.

Lemma scrapable_with_ids d : scrapable d → scrapable (with_ids d).
Proof. unfold scrapable. by rewrite with_ids_formUrl. Qed.

Lemma with_ids_missing d : d !! "formUrl" = None → with_ids d = d.
Proof. intros H. unfold with_ids. by rewrite H. Qed.

Lemma apply_attributes_scrapable application st d :
  objs st !! application = Some d → scrapable d →
  ∃ v, apply_attributes application st
       = (Ok v, mkState (<[application := with_ids d]> (objs st)) (db st) (cache st) (trace st)).
Proof.
  intros Hd Hs. rewrite (apply_attributes_run _ _ _ Hd). unfold scrapable in Hs.
  destruct (d !! "formUrl") as [[| | |u| | | | |]|] eqn:Hu; try done; [by eexists|].
  eexists. f_equal. destruct st as [o t c tr]. cbn [objs db cache trace] in *.
  f_equal. rewrite with_ids_missing by done. symmetry. by apply insert_id.
Qed.

(** X1.  [apply_custom_attributes] on one record returns the object it
    was given, whatever [apply_attributes] returned.  When the record
    has a string [formUrl], or no [formUrl], the object then holds the
    record with the two identifiers scraped from the URL ([with_ids]);
    without a [formUrl] that is the record as it was, and the
    [BAD_REQUEST] tuple of [apply_attributes] is dropped.  A [formUrl]
    that is not a string raises [AttributeError], which is not caught,
    and leaves the state as it was. *)
Theorem apply_custom_attributes_on_record (application : nat) (st : State) (d : dict) :
  objs st !! application = Some d →
  (scrapable d →
     apply_custom_attributes (OneRecord application) st
     = (Ok (OneRecord application),
        mkState (<[application := with_ids d]> (objs st)) (db st) (cache st) (trace st)))
  ∧ (d !! "formUrl" = None →
       apply_custom_attributes (OneRecord application) st = (Ok (OneRecord application), st))
  ∧ (¬ scrapable d →
       apply_custom_attributes (OneRecord application) st
       = (Raise (Exn AttributeError "object has no attribute 'find'"), st)).
Proof.
  intros Hd. unfold apply_custom_attributes. split; [|split].
  - intros Hs. destruct (apply_attributes_scrapable _ _ _ Hd Hs) as [v Hrun].
    by rewrite (bind_ok _ _ _ _ _ Hrun).
  - intros Hu. erewrite bind_ok; [reflexivity|].
    rewrite (apply_attributes_run _ _ _ Hd), Hu. reflexivity.
  - intros Hs. erewrite bind_raise; [reflexivity|].
    rewrite (apply_attributes_run _ _ _ Hd). unfold scrapable in Hs.
    by destruct (d !! "formUrl") as [[| | |u| | | | |]|].
Qed.

Lemma apply_custom_attributes_on_record_witness :
  (let d : dict := {[ "formUrl" := PStr "http://host/form/f1/submission/s9" ]} in
   apply_custom_attributes (OneRecord 0) (Demo.state0 d [])
   = (Ok (OneRecord 0),
      mkState (<[0%nat := <["submissionId" := PStr "s9"]> (<["formId" := PStr "f1"]> d)]>
                 {[ 0%nat := d ]}) [] [] []))
  ∧ apply_custom_attributes (OneRecord 0) (Demo.state0 {[ "id" := PInt 4 ]} [])
    = (Ok (OneRecord 0), Demo.state0 {[ "id" := PInt 4 ]} [])
  ∧ apply_custom_attributes (OneRecord 0) (Demo.state0 {[ "formUrl" := PNone ]} [])
    = (Raise (Exn AttributeError "object has no attribute 'find'"),
       Demo.state0 {[ "formUrl" := PNone ]} []).
Proof.
  split; [|split].
  - etrans.
    + apply (proj1 (apply_custom_attributes_on_record 0%nat
               (Demo.state0 {[ "formUrl" := PStr "http://host/form/f1/submission/s9" ]} [])
               {[ "formUrl" := PStr "http://host/form/f1/submission/s9" ]} eq_refl)).
      exact I.
    + reflexivity.
  - apply (proj1 (proj2 (apply_custom_attributes_on_record 0%nat
             (Demo.state0 {[ "id" := PInt 4 ]} []) {[ "id" := PInt 4 ]} eq_refl))).
    reflexivity.
  - apply (proj2 (proj2 (apply_custom_attributes_on_record 0%nat
             (Demo.state0 {[ "formUrl" := PNone ]} []) {[ "formUrl" := PNone ]} eq_refl))).
    simpl. tauto.
Defined.

Lemma apply_to_each_ok entries : ∀ st,
  Forall (λ r, ∃ d, objs st !! r = Some d ∧ scrapable d) entries →
  ∃ st', apply_to_each entries st = (Ok tt, st')
    ∧ db st' = db st ∧ cache st' = cache st ∧ trace st' = trace st
    ∧ ∀ r, objs st' !! r
           = if bool_decide (r ∈ entries) then with_ids <$> objs st !! r else objs st !! r.
Proof.
  induction entries as [|entry entries IH]; intros st Hall.
  - exists st. repeat split; try done.
  - apply Forall_cons in Hall as [(d & Hd & Hs) Hall].
    destruct (apply_attributes_scrapable _ _ _ Hd Hs) as [v Hrun].
    set (st1 := mkState (<[entry := with_ids d]> (objs st)) (db st) (cache st) (trace st)) in *.
    destruct (IH st1) as (st' & Hrest & Hdb & Hcache & Htrace & Hobjs).
    { eapply Forall_impl; [exact Hall|]. intros r (d' & Hd' & Hs'). subst st1. cbn [objs].
      destruct (decide (r = entry)) as [->|Hne].
      - exists (with_ids d). rewrite lookup_insert_eq. split; [done|by apply scrapable_with_ids].
      - rewrite lookup_insert_ne by done. eauto. }
    exists st'. simpl. rewrite (bind_ok _ _ _ _ _ Hrun).
    split; [done|]. split; [done|]. split; [done|]. split; [done|].
    intros r. rewrite Hobjs. subst st1. cbn [objs].
    destruct (decide (r = entry)) as [->|Hne].
    + rewrite lookup_insert_eq, Hd. rewrite (bool_decide_true (entry ∈ entry :: entries))
        by apply list_elem_of_here.
      simpl. destruct (bool_decide (entry ∈ entries)); simpl; by rewrite ?with_ids_idemp.
    + rewrite lookup_insert_ne by done.
      assert (r ∈ entry :: entries ↔ r ∈ entries) as Hiff.
      { rewrite elem_of_cons. naive_solver. }
      by rewrite (bool_decide_ext _ _ Hiff).
Qed.

(** X2.  [apply_custom_attributes] on a list of records, each with a
    string [formUrl] or none, returns the list it was given.  Every
    object of the list then holds its record with the two identifiers,
    also an object that occurs in the list more than once; the objects
    that are not in the list, the table, the cache and the trace are as
    before. *)
Theorem apply_custom_attributes_on_list (entries : list nat) (st : State) :
  Forall (λ r, ∃ d, objs st !! r = Some d ∧ scrapable d) entries →
  ∃ st', apply_custom_attributes (RecordList entries) st = (Ok (RecordList entries), st')
    ∧ db st' = db st ∧ cache st' = cache st ∧ trace st' = trace st
    ∧ ∀ r, objs st' !! r
           = if bool_decide (r ∈ entries) then with_ids <$> objs st !! r else objs st !! r.
Proof.
  intros Hall. destruct (apply_to_each_ok entries st Hall) as (st' & Hrun & Hrest).
  exists st'. split; [|exact Hrest]. unfold apply_custom_attributes.
  by rewrite (bind_ok _ _ _ _ _ Hrun).
Qed.

Lemma apply_custom_attributes_on_list_witness :
  let d0 : dict := {[ "formUrl" := PStr "http://host/form/f1/submission/s9" ]} in
  let d1 : dict := {[ "id" := PInt 4 ]} in
  let st := mkState {[ 0%nat := d0; 1%nat := d1; 2%nat := d0 ]} [] [] [] in
  ∃ st', apply_custom_attributes (RecordList [0; 1; 0]%nat) st
         = (Ok (RecordList [0; 1; 0]%nat), st')
    ∧ db st' = db st ∧ cache st' = cache st ∧ trace st' = trace st
    ∧ ∀ r, objs st' !! r
           = if bool_decide (r ∈ [0; 1; 0]%nat) then with_ids <$> objs st !! r
             else objs st !! r.
Proof.
  intros d0 d1 st. apply (apply_custom_attributes_on_list [0; 1; 0]%nat st).
  repeat constructor; eexists; (split; [reflexivity|exact I]).
Defined.

Lemma apply_to_each_app pre post st :
  apply_to_each (pre ++ post) st = (apply_to_each pre ;; apply_to_each post) st.
Proof.
  revert st. induction pre as [|entry pre IH]; intros st; [done|].
  simpl. unfold bind in *. destruct (apply_attributes entry st) as [[v|e] st1]; [|done].
  apply IH.
Qed.

(** X3.  The loop of [apply_custom_attributes] stops at the first entry
    whose [formUrl] is not a string: the [AttributeError] goes on to the
    caller, the entries before it have been changed in place, and no
    other object has. *)
Theorem apply_custom_attributes_stops_at_bad_entry (pre post : list nat) (bad : nat)
    (st : State) (d : dict) :
  Forall (λ r, ∃ d, objs st !! r = Some d ∧ scrapable d) pre →
  objs st !! bad = Some d →
  ¬ scrapable d →
  ∃ st', apply_custom_attributes (RecordList (pre ++ bad :: post)) st
         = (Raise (Exn AttributeError "object has no attribute 'find'"), st')
    ∧ ∀ r, objs st' !! r
           = if bool_decide (r ∈ pre) then with_ids <$> objs st !! r else objs st !! r.
Proof.
  intros Hpre Hd Hbad.
  destruct (apply_to_each_ok pre st Hpre) as (st' & Hrun & _ & _ & _ & Hobjs).
  exists st'. split; [|exact Hobjs].
  assert (bad ∉ pre) as Hnotin.
  { intros Hin. rewrite Forall_forall in Hpre. destruct (Hpre bad Hin) as (d' & Hd' & Hs').
    rewrite Hd in Hd'. by injection Hd' as <-. }
  unfold apply_custom_attributes. erewrite bind_raise; [reflexivity|].
  rewrite apply_to_each_app. rewrite (bind_ok _ _ _ _ _ Hrun). simpl.
  erewrite bind_raise; [reflexivity|].
  assert (objs st' !! bad = Some d) as Hd'.
  { rewrite Hobjs. by rewrite bool_decide_false. }
  rewrite (apply_attributes_run _ _ _ Hd'). unfold scrapable in Hbad.
  by destruct (d !! "formUrl") as [[| | |u| | | | |]|].
Qed.

Lemma apply_custom_attributes_stops_at_bad_entry_witness :
  let d0 : dict := {[ "formUrl" := PStr "http://host/form/f1/submission/s9" ]} in
  let d1 : dict := {[ "formUrl" := PNone ]} in
  let st := mkState {[ 0%nat := d0; 1%nat := d1; 2%nat := d0 ]} [] [] [] in
  ∃ st', apply_custom_attributes (RecordList ([0%nat] ++ 1%nat :: [2%nat])) st
         = (Raise (Exn AttributeError "object has no attribute 'find'"), st')
    ∧ ∀ r, objs st' !! r
           = if bool_decide (r ∈ [0%nat]) then with_ids <$> objs st !! r else objs st !! r.
Proof.
  intros d0 d1 st.
  apply (apply_custom_attributes_stops_at_bad_entry [0%nat] [2%nat] 1%nat st d1).
  - repeat constructor; eexists; (split; [reflexivity|exact I]).
  - reflexivity.
  - simpl. tauto.
Defined.

(** X4.  [apply_attributes] is idempotent: on the state it leaves, a
    second call returns the same result and changes nothing. *)
Theorem apply_attributes_idempotent (application : nat) (st : State) :
  apply_attributes application (apply_attributes application st).2
  = apply_attributes application st.
Proof.
  destruct (objs st !! application) as [d|] eqn:Hd; cycle 1.
  { rewrite (apply_attributes_no_object _ _ Hd). simpl.
    by rewrite (apply_attributes_no_object _ _ Hd). }
  rewrite (apply_attributes_run _ _ _ Hd).
  destruct (d !! "formUrl") as [[| | |u| | | | |]|] eqn:Hu; cbn [snd];
    try (by rewrite (apply_attributes_run _ _ _ Hd), Hu).
  erewrite apply_attributes_run; [|cbn [objs]; apply lookup_insert_eq].
  rewrite with_ids_formUrl, Hu. cbn [objs db cache trace].
  by rewrite with_ids_idemp, insert_insert_eq.
Qed.

(** X5.  [apply_attributes] touches nothing but the keys [formId] and
    [submissionId] of the record it is given: the table, the cache, the
    trace, the other objects and the other keys of the record are as
    before, on every path. *)
Theorem apply_attributes_frame (application : nat) (st : State) :
  let st' := (apply_attributes application st).2 in
  db st' = db st ∧ cache st' = cache st ∧ trace st' = trace st
  ∧ (∀ other, other ≠ application → objs st' !! other = objs st !! other)
  ∧ (∀ k, k ≠ "formId"%string → k ≠ "submissionId"%string →
       default ∅ (objs st' !! application) !! k = default ∅ (objs st !! application) !! k).
Proof.
  destruct (objs st !! application) as [d|] eqn:Hd; cycle 1.
  { rewrite (apply_attributes_no_object _ _ Hd). simpl. by rewrite Hd. }
  rewrite (apply_attributes_run _ _ _ Hd).
  destruct (d !! "formUrl") as [[| | |u| | | | |]|] eqn:Hu; cbn [snd]; try by rewrite Hd.
  cbn [objs db cache trace]. repeat split; try done.
  - intros other Hne. by rewrite lookup_insert_ne.
  - intros k Hf Hs. rewrite lookup_insert_eq. simpl. by apply with_ids_other.
Qed.

Lemma substring_nil s : ∀ n, String.substring n 0 s = ""%string.
Proof. induction s as [|c s IH]; intros [|n]; simpl; auto. Qed.

Lemma slice_from s (a : nat) :
  Py.slice s (Z.of_nat a) (Py.len s) = String.substring a (String.length s - a) s.
Proof.
  unfold Py.slice, Py.bound, Py.len.
  destruct (Z.ltb_spec (Z.of_nat a) 0); [lia|].
  destruct (Z.ltb_spec (Z.of_nat (String.length s)) 0); [lia|].
  rewrite Z.min_id. destruct (decide (a ≤ String.length s)%nat) as [Hle|Hgt].
  - rewrite Z.min_l by lia. rewrite Nat2Z.id. f_equal. lia.
  - rewrite Z.min_r by lia. rewrite Z.sub_diag. simpl.
    replace (String.length s - a)%nat with 0%nat by lia. by rewrite !substring_nil.
Qed.

Lemma slice_to_last s (a : nat) :
  Py.slice s (Z.of_nat a) (-1) = String.substring a (String.length s - 1 - a) s.
Proof.
  unfold Py.slice, Py.bound, Py.len.
  destruct (Z.ltb_spec (Z.of_nat a) 0); [lia|].
  change (-1 <? 0) with true. cbv iota.
  destruct (decide (a < String.length s)%nat) as [Hlt|Hge].
  - rewrite Z.min_l, Z.max_r by lia. rewrite Nat2Z.id. f_equal. lia.
  - replace (String.length s - 1 - a)%nat with 0%nat by lia.
    replace (Z.to_nat (Z.max 0 (-1 + Z.of_nat (String.length s))
                       - Z.min (Z.of_nat a) (Z.of_nat (String.length s)))) with 0%nat by lia.
    by rewrite !substring_nil.
Qed.

(** X6.  A [formUrl] in which ["/submission/"] does not occur raises
    nothing: [find] yields -1, so that [submissionId] is the URL from
    its offset 11 on, and [formId] runs from the end of ["/form/"] (from
    the offset 5 when that is missing too) up to, not including, the
    last character of the URL. *)
Theorem apply_attributes_without_submission (application : nat) (st : State) (d : dict)
    (u : string) :
  objs st !! application = Some d →
  d !! "formUrl" = Some (PStr u) →
  String.index 0 "/submission/" u = None →
  let start :=
    match String.index 0 "/form/" u with
    | Some i => (i + 6)%nat
    | None => 5%nat
    end in
  let d' :=
    <["submissionId" := PStr (String.substring 11 (String.length u - 11) u)]>
      (<["formId" := PStr (String.substring start (String.length u - 1 - start) u)]> d) in
  apply_attributes application st
  = (Ok (PDict d'), mkState (<[application := d']> (objs st)) (db st) (cache st) (trace st)).
Proof.
  intros Hd Hu Hsub start d'. rewrite (apply_attributes_eq application st d u Hd Hu).
  unfold Py.find. rewrite Hsub.
  change (-1 + 12) with (Z.of_nat 11). rewrite slice_from.
  assert (match String.index 0 "/form/" u with
          | Some i => Z.of_nat i
          | None => -1
          end + 6 = Z.of_nat start) as ->.
  { subst start. destruct (String.index 0 "/form/" u); lia. }
  by rewrite slice_to_last.
Qed.

Lemma apply_attributes_without_submission_witness :
  let d : dict := {[ "formUrl" := PStr "http://host/form/f1" ]} in
  let d' := <["submissionId" := PStr "/form/f1"]> (<["formId" := PStr "f"]> d) in
  apply_attributes 0 (Demo.state0 d [])
  = (Ok (PDict d'), mkState (<[0%nat := d']> {[ 0%nat := d ]}) [] [] []).
Proof.
  intros d d'.
  apply (apply_attributes_without_submission 0%nat (Demo.state0 d []) d "http://host/form/f1");
    reflexivity.
Defined.

(** ** [create_application]: the calls it makes *)

(** The outcome of a call on each of its paths. *)
Ltac create_paths E data token st d Hd Hrun :=
  let form_id := fresh "form_id" in
  let mapper := fresh "mapper" in
  let err := fresh "err" in
  let pid := fresh "pid" in
  let Hf := fresh "Hf" in
  let Hm := fresh "Hm" in
  let Hp := fresh "Hp" in
  let Ho := fresh "Ho" in
  destruct (d !! "form_id") as [form_id|] eqn:Hf;
    [ destruct (mapper_of_form E form_id) as [mapper|err] eqn:Hm;
      [ destruct (d !! "process_instance_id") as [pid|] eqn:Hp;
        [ rewrite (create_application_supplied E data token st d Hd form_id mapper Hf Hm pid Hp)
            in Hrun
        | rewrite (create_application_launched E data token st d Hd form_id mapper Hf Hm Hp)
            in Hrun;
          destruct (start_outcome E token st mapper d) as [pid|err] eqn:Ho;
            [|destruct (Py.is_TypeError err)] ]
      | rewrite (create_application_no_mapper E data token st d Hd form_id err Hf Hm) in Hrun ]
    | rewrite (create_application_no_form_id E data token st d Hd Hf) in Hrun ];
  cbv zeta in Hrun; apply pair_equal_spec in Hrun as [<- <-]; cbn [objs db cache trace].

(** X7.  The calls of [create_application].  Whatever the outcome, the
    call leaves the authorisation cache as it is, makes no find on the
    repository and no call to the authorisation provider, and makes at
    most one mapper lookup, one create, one workflow start (no retry)
    and one update; the update is made exactly when the entity is
    returned. *)
Theorem create_application_calls (E : Env) (data : nat) (token : string) (st : State)
    (d : dict) (r : res retval) (st' : State) :
  objs st !! data = Some d →
  create_application E data token st = (r, st') →
  cache st' = cache st
  ∧ ∃ new, trace st' = trace st ++ new
      ∧ filter is_find new = []
      ∧ filter is_any_fetch new = []
      ∧ (length (filter is_mapper_find new) ≤ 1)%nat
      ∧ (length (filter is_create new) ≤ 1)%nat
      ∧ (length (filter is_bpm new) ≤ 1)%nat
      ∧ (length (filter is_update new) ≤ 1)%nat
      ∧ (length (filter is_update new) = 1%nat ↔ ∃ a, r = Ok (RApp a)).
Proof.
  intros Hd Hrun.
  create_paths E data token st d Hd Hrun; (split; [done|]);
    try (eexists; split; [reflexivity|]);
    try (exists []; split; [by rewrite app_nil_r|]);
    do 6 (split; [simpl; (done || lia)|]); simpl;
    (split; [intros; by eauto|intros [a Ha]; by try discriminate Ha]).
Qed.

Lemma create_application_calls_witness :
  let st := Demo.state0 (Demo.request "F1") Demo.rows in
  let out := create_application Demo.env 0 "tok" st in
  cache out.2 = cache st
  ∧ ∃ new, trace out.2 = trace st ++ new
      ∧ filter is_find new = []
      ∧ filter is_any_fetch new = []
      ∧ (length (filter is_mapper_find new) ≤ 1)%nat
      ∧ (length (filter is_create new) ≤ 1)%nat
      ∧ (length (filter is_bpm new) ≤ 1)%nat
      ∧ (length (filter is_update new) ≤ 1)%nat
      ∧ (length (filter is_update new) = 1%nat ↔ ∃ a, out.1 = Ok (RApp a)).
Proof.
  intros st out.
  apply (create_application_calls Demo.env 0%nat "tok" st (Demo.request "F1") out.1 out.2).
  - reflexivity.
  - apply surjective_pairing.
Defined.

(** X8.  [create_application] raises only before it persists anything.
    When a call raises, the table is as before, no write and no
    workflow start were made, and the exception is the [KeyError] of a
    map without [form_id] or the exception of the mapper lookup.  (The
    create and the update of the model are taken to succeed.) *)
Theorem create_application_raises_before_create (E : Env) (data : nat) (token : string)
    (st : State) (d : dict) (e : exn) (st' : State) :
  objs st !! data = Some d →
  create_application E data token st = (Raise e, st') →
  db st' = db st
  ∧ filter is_write (trace st') = filter is_write (trace st)
  ∧ filter is_bpm (trace st') = filter is_bpm (trace st)
  ∧ ((d !! "form_id" = None ∧ e = Exn KeyError "form_id")
     ∨ (∃ form_id, d !! "form_id" = Some form_id ∧ mapper_of_form E form_id = Raise e)).
Proof.
  intros Hd Hrun.
  destruct (d !! "form_id") as [form_id|] eqn:Hf; cycle 1.
  { rewrite (create_application_no_form_id E data token st d Hd Hf) in Hrun.
    apply pair_equal_spec in Hrun as [[= <-] <-]. cbn [db trace].
    split; [done|]. split; [done|]. split; [done|]. by left. }
  destruct (mapper_of_form E form_id) as [mapper|err] eqn:Hm; cycle 1.
  { rewrite (create_application_no_mapper E data token st d Hd form_id err Hf Hm) in Hrun.
    apply pair_equal_spec in Hrun as [[= <-] <-]. cbn [db trace].
    rewrite !filter_app. simpl. rewrite !app_nil_r.
    split; [done|]. split; [done|]. split; [done|]. right. by exists form_id. }
  exfalso. destruct (d !! "process_instance_id") as [pid|] eqn:Hp.
  - by rewrite (create_application_supplied E data token st d Hd form_id mapper Hf Hm pid Hp)
      in Hrun.
  - rewrite (create_application_launched E data token st d Hd form_id mapper Hf Hm Hp) in Hrun.
    destruct (start_outcome E token st mapper d) as [pid|err];
      [|destruct (Py.is_TypeError err)]; done.
Qed.

Lemma create_application_raises_before_create_witness :
  let d : dict := Demo.request "F9" in
  let st := Demo.state0 d Demo.rows in
  let e := Exn (BusinessException BAD_REQUEST) "Mapper not found" in
  let st' := (create_application Demo.env 0 "tok" st).2 in
  db st' = db st
  ∧ filter is_write (trace st') = filter is_write (trace st)
  ∧ filter is_bpm (trace st') = filter is_bpm (trace st)
  ∧ ((d !! "form_id" = None ∧ e = Exn KeyError "form_id")
     ∨ (∃ form_id, d !! "form_id" = Some form_id ∧ Demo.mappers form_id = Raise e)).
Proof.
  intros d st e st'.
  apply (create_application_raises_before_create Demo.env 0%nat "tok" st d e st');
    reflexivity.
Defined.

(** X9.  The workflow start of [create_application].  When the form
    resolves to a mapper and no process instance was supplied, the calls
    begin with the mapper lookup, the create and the workflow start, in
    this order; the workflow is started with the process key of the
    mapper and the credential of the caller; in its payload
    [applicationId] is the identifier of the row just created,
    [formName] the form name of the mapper, whatever
    [application_name] the caller sent, and [formUrl] and
    [submitterName] the [form_url] and [created_by] of the caller's
    map. *)
Theorem create_application_start_payload (E : Env) (data : nat) (token : string)
    (st : State) (d : dict) (form_id : pyval) (mapper : FormProcessMapper.t)
    (r : res retval) (st' : State) :
  objs st !! data = Some d →
  d !! "form_id" = Some form_id →
  mapper_of_form E form_id = Ok mapper →
  d !! "process_instance_id" = None →
  create_application E data token st = (r, st') →
  ∃ id variables rest,
    id = Z.of_nat (length (db st)) + 1
    ∧ trace st'
      = trace st ++ [ MapperFind form_id; DbCreate id;
                      BpmStart (FormProcessMapper.process_key mapper)
                        (PDict {[ "variables" := PDict variables ]}) token ] ++ rest
    ∧ variables !! "applicationId" = Some (value (PInt id))
    ∧ variables !! "formName" = Some (value (FormProcessMapper.form_name mapper))
    ∧ variables !! "formUrl" = Some (value (default PNone (d !! "form_url")))
    ∧ variables !! "submitterName" = Some (value (default PNone (d !! "created_by"))).
Proof.
  intros Hd Hf Hm Hp Hrun.
  rewrite (create_application_launched E data token st d Hd form_id mapper Hf Hm Hp) in Hrun.
  assert (Application.application_name (created_row E st mapper d)
          = FormProcessMapper.form_name mapper) as Hname.
  { unfold created_row, new_row, filled_in. simpl. by rewrite lookup_insert_eq. }
  assert (Application.form_url (created_row E st mapper d) = default PNone (d !! "form_url"))
    as Hurl.
  { unfold created_row, new_row, filled_in. simpl. by rewrite !lookup_insert_ne. }
  assert (Application.created_by (created_row E st mapper d)
          = default PNone (d !! "created_by")) as Hby.
  { unfold created_row, new_row, filled_in. simpl. by rewrite !lookup_insert_ne. }
  eexists _, _.
  destruct (start_outcome E token st mapper d) as [pid|err];
    [|destruct (Py.is_TypeError err)]; cbv zeta in Hrun;
    apply pair_equal_spec in Hrun as [<- <-]; cbn [trace];
    (eexists [_]; split; [reflexivity|]; split; [reflexivity|];
     rewrite <- Hname, <- Hurl, <- Hby; repeat split; reflexivity).
Qed.

Lemma create_application_start_payload_witness :
  let d : dict := <["application_name" := PStr "Sent by the caller"]> (Demo.request "F1") in
  let st := Demo.state0 d Demo.rows in
  let out := create_application Demo.env 0 "tok" st in
  ∃ id variables rest,
    id = Z.of_nat (length (db st)) + 1
    ∧ trace out.2
      = trace st ++ [ MapperFind (PStr "F1"); DbCreate id;
                      BpmStart (PStr "K1") (PDict {[ "variables" := PDict variables ]}) "tok" ]
          ++ rest
    ∧ variables !! "applicationId" = Some (value (PInt id))
    ∧ variables !! "formName" = Some (value (PStr "Leave request"))
    ∧ variables !! "formUrl" = Some (value (default PNone (d !! "form_url")))
    ∧ variables !! "submitterName" = Some (value (default PNone (d !! "created_by"))).
Proof.
  intros d st out.
  apply (create_application_start_payload Demo.env 0%nat "tok" st d (PStr "F1")
           (FormProcessMapper.Build 1 (PStr "Leave request") (PStr "K1")) out.1 out.2
           eq_refl eq_refl eq_refl eq_refl (surjective_pairing out)).
Defined.

(** ** The read operations: rejected inputs and failing collaborators *)

Section Rejected.
Context (E : Env) (token : string) (st : State).
Context (user_id form_id created_from created_to modified_from modified_to : pyval).
Context (application_id order_by sort_order created_by application_status
         application_name : pyval).

Lemma lift_raise {A B} (r : res A) (e : exn) (k : A → M B) st' :
  r = Raise e → bind (lift r) k st' = (Raise e, st').
Proof. by intros ->. Qed.

(** X10.  A [page_no] that [int] rejects, or a [limit] that [int]
    rejects after an accepted [page_no], makes each of the seven listing
    operations raise that exception with the state untouched: nothing
    is looked up, fetched or found. *)
Theorem malformed_pagination_is_rejected (page_no limit : pyval) (e : exn) :
  coerce_int page_no = Raise e ∨ (returns (coerce_int page_no) ∧ coerce_int limit = Raise e) →
  get_auth_applications_and_count E token page_no limit order_by created_from created_to
    modified_from modified_to application_id application_name application_status created_by
    sort_order st = (Raise e, st)
  ∧ get_all_application_count E token page_no limit st = (Raise e, st)
  ∧ get_all_applications E page_no limit st = (Raise e, st)
  ∧ get_all_applications_by_user E user_id page_no limit order_by sort_order created_from
      created_to modified_from modified_to created_by application_status application_name
      application_id st = (Raise e, st)
  ∧ get_all_application_by_user_group E page_no limit user_id st = (Raise e, st)
  ∧ get_all_applications_form_id E form_id page_no limit st = (Raise e, st)
  ∧ get_all_applications_form_id_user E form_id user_id page_no limit st = (Raise e, st).
Proof.
  unfold get_auth_applications_and_count, get_all_application_count, get_all_applications,
    get_all_applications_by_user, get_all_application_by_user_group,
    get_all_applications_form_id, get_all_applications_form_id_user.
  intros [Hp|[Hp Hl]].
  - repeat split; apply (lift_raise _ _ _ _ Hp).
  - destruct (coerce_int page_no) as [p|] eqn:Hp'; [|done].
    repeat split; rewrite (lift_ok (Ok p) p _ _ eq_refl); apply (lift_raise _ _ _ _ Hl).
Qed.

End Rejected.

Lemma malformed_pagination_is_rejected_witness :
  let st := Demo.state0 ∅ Demo.rows in
  let e := Exn ValueError "invalid literal for int() with base 10" in
  get_auth_applications_and_count Demo.env "alice" (PInt 1) (PStr "ten") PNone PNone PNone
    PNone PNone PNone PNone PNone PNone PNone st = (Raise e, st)
  ∧ get_all_application_count Demo.env "alice" (PInt 1) (PStr "ten") st = (Raise e, st)
  ∧ get_all_applications Demo.env (PInt 1) (PStr "ten") st = (Raise e, st)
  ∧ get_all_applications_by_user Demo.env (PStr "dana") (PInt 1) (PStr "ten") PNone PNone
      PNone PNone PNone PNone PNone PNone PNone PNone st = (Raise e, st)
  ∧ get_all_application_by_user_group Demo.env (PInt 1) (PStr "ten") (PStr "dana") st
    = (Raise e, st)
  ∧ get_all_applications_form_id Demo.env (PInt 1) (PInt 1) (PStr "ten") st = (Raise e, st)
  ∧ get_all_applications_form_id_user Demo.env (PInt 1) (PStr "dana") (PInt 1) (PStr "ten") st
    = (Raise e, st).
Proof.
  intros st e.
  apply (malformed_pagination_is_rejected Demo.env "alice" st (PStr "dana") (PInt 1) PNone
           PNone PNone PNone PNone PNone PNone PNone PNone PNone (PInt 1) (PStr "ten") e).
  right. split; [exact I|reflexivity].
Defined.


Section Failing.
Context (E : Env) (token : string) (st st1 : State).
Context (page_no limit application_id : pyval).
Context (order_by created_from created_to modified_from modified_to application_name
         application_status created_by sort_order : pyval).
Hypothesis Hpage_no : returns (coerce_int page_no).
Hypothesis Hlimit : returns (coerce_int limit).
Hypothesis Happlication_id : returns (coerce_int application_id).

(** X11.  An authorisation that is truthy but not a list of records
    with a [formName]: the exception of the loop over it (a [KeyError]
    for a record without [formName], a [TypeError] for a value that
    cannot be iterated or indexed) goes on to the caller of each of the
    three scoped reads, and no find is made on the repository. *)
Theorem malformed_authorisation_raises (v : pyval) (e : exn) :
  get_authorised_form_list E token st = (Ok v, st1) →
  Py.truthy v = true →
  res_bind (Py.iter v) (λ items, append_form_names items []) = Raise e →
  get_auth_applications_and_count E token page_no limit order_by created_from created_to
    modified_from modified_to application_id application_name application_status created_by
    sort_order st = (Raise e, st1)
  ∧ get_all_application_count E token page_no limit st = (Raise e, st1)
  ∧ get_auth_by_application_id E application_id token st = (Raise e, st1)
  ∧ filter is_find (trace st1) = filter is_find (trace st).
Proof.
  intros Hlookup Hv He.
  destruct (coerce_int page_no) as [p|] eqn:Hp; [|done].
  destruct (coerce_int limit) as [l|] eqn:Hl; [|done].
  destruct (coerce_int application_id) as [a|] eqn:Ha; [|done].
  assert (∀ k : list pyval → M pyval,
            (let* form_names := collect_form_names v in k form_names) st1 = (Raise e, st1))
    as Hnames.
  { intros k. unfold collect_form_names. by apply lift_raise. }
  unfold get_auth_applications_and_count, get_all_application_count,
    get_auth_by_application_id.
  rewrite Hp, Hl, Ha. rewrite !(lift_ok (Ok p) p _ _ eq_refl).
  rewrite !(lift_ok (Ok l) l _ _ eq_refl). rewrite !(lift_ok (Ok a) a _ _ eq_refl).
  rewrite !(bind_ok _ _ _ _ _ Hlookup). rewrite Hv.
  split; [apply Hnames|]. split; [apply Hnames|]. split; [apply Hnames|].
  rewrite get_authorised_form_list_eq in Hlookup.
  destruct (cache_get token (cache st)).
  - by apply pair_equal_spec in Hlookup as [_ <-].
  - destruct (provider_forms E _ token); apply pair_equal_spec in Hlookup as [_ <-];
      cbn [trace]; rewrite filter_app; simpl; by rewrite app_nil_r.
Qed.

(** X12.  An exception of the authorisation provider is not memoised.
    The lookup of a credential that is not in the cache, when the
    provider raises, raises the same exception and leaves the cache as
    it is, and so do the three scoped reads; the next lookup of the
    credential asks the provider again. *)
Theorem provider_failure_is_not_memoized (e : exn) :
  cache_get token (cache st) = None →
  provider_forms E (length (trace st)) token = Raise e →
  let st1 := mkState (objs st) (db st) (cache st) (trace st ++ [AuthFetch token]) in
  get_authorised_form_list E token st = (Raise e, st1)
  ∧ get_auth_applications_and_count E token page_no limit order_by created_from created_to
      modified_from modified_to application_id application_name application_status created_by
      sort_order st = (Raise e, st1)
  ∧ get_all_application_count E token page_no limit st = (Raise e, st1)
  ∧ get_auth_by_application_id E application_id token st = (Raise e, st1)
  ∧ (get_authorised_form_list E token st1).1 = provider_forms E (S (length (trace st))) token
  ∧ trace (get_authorised_form_list E token st1).2
    = trace st ++ [AuthFetch token; AuthFetch token].
Proof.
  intros Hget Hprovider st2. subst st2.
  assert (get_authorised_form_list E token st
          = (Raise e, mkState (objs st) (db st) (cache st) (trace st ++ [AuthFetch token])))
    as Hlookup.
  { by rewrite get_authorised_form_list_eq, Hget, Hprovider. }
  destruct (coerce_int page_no) as [p|] eqn:Hp; [|done].
  destruct (coerce_int limit) as [l|] eqn:Hl; [|done].
  destruct (coerce_int application_id) as [a|] eqn:Ha; [|done].
  split; [exact Hlookup|].
  unfold get_auth_applications_and_count, get_all_application_count,
    get_auth_by_application_id.
  rewrite Hp, Hl, Ha. rewrite !(lift_ok (Ok p) p _ _ eq_refl).
  rewrite !(lift_ok (Ok l) l _ _ eq_refl). rewrite !(lift_ok (Ok a) a _ _ eq_refl).
  rewrite !(bind_raise _ _ _ _ _ Hlookup).
  split; [done|]. split; [done|]. split; [done|].
  rewrite get_authorised_form_list_eq. cbn [objs db cache trace]. rewrite Hget.
  rewrite length_app. simpl. replace (length (trace st) + 1)%nat with (S (length (trace st)))
    by lia.
  destruct (provider_forms E (S (length (trace st))) token); cbn [fst snd trace];
    by rewrite <- app_assoc.
Qed.

(** X13.  [get_auth_by_application_id] under a truthy authorisation
    answers with [OK] also when the repository finds no application: the
    body is then the dump of [None].  The call made is one find with the
    form names of the authorisation and the identifier as given. *)
Theorem authorised_lookup_of_missing_application (v : pyval) (form_names : list pyval) :
  get_authorised_form_list E token st = (Ok v, st1) →
  Py.truthy v = true →
  res_bind (Py.iter v) (λ items, append_form_names items []) = Ok form_names →
  q_find_id_by_form_names E (db st1)
    [ ("form_names", PList form_names); ("application_id", application_id) ] = Ok None →
  get_auth_by_application_id E application_id token st
  = (Ok (PTuple [ApplicationSchema_dump E None; PStatus OK]),
     mkState (objs st1) (db st1) (cache st1)
       (trace st1 ++ [DbFind "find_id_by_form_names"
                        [ ("form_names", PList form_names);
                          ("application_id", application_id) ]])).
Proof.
  intros Hlookup Hv Hnames Hfind. unfold get_auth_by_application_id.
  rewrite (bind_ok _ _ _ _ _ Hlookup), Hv. unfold collect_form_names.
  rewrite (lift_ok _ _ _ _ Hnames). unfold Application_find_id_by_form_names.
  erewrite bind_ok; [|rewrite query_eq, Hfind; reflexivity]. reflexivity.
Qed.

End Failing.

Lemma malformed_authorisation_raises_witness :
  let E := Demo.world Demo.nameless in
  let st := Demo.state0 ∅ Demo.rows in
  let st1 := (get_authorised_form_list E "alice" st).2 in
  let e := Exn KeyError "formName" in
  get_auth_applications_and_count E "alice" (PInt 1) (PStr "10") PNone PNone PNone PNone PNone
    (PInt 2) PNone PNone PNone PNone st = (Raise e, st1)
  ∧ get_all_application_count E "alice" (PInt 1) (PStr "10") st = (Raise e, st1)
  ∧ get_auth_by_application_id E (PInt 2) "alice" st = (Raise e, st1)
  ∧ filter is_find (trace st1) = filter is_find (trace st).
Proof.
  intros E st st1 e.
  apply (malformed_authorisation_raises E "alice" st st1 (PInt 1) (PStr "10") (PInt 2)
           PNone PNone PNone PNone PNone PNone PNone PNone PNone I I I
           (PList [PDict {[ "formId" := PStr "F1" ]}]) e); reflexivity.
Defined.

Lemma provider_failure_is_not_memoized_witness :
  let E := Demo.world Demo.flaky in
  let st := Demo.state0 ∅ Demo.rows in
  let e := Exn (OtherError "ConnectionError") "connection refused" in
  let st1 := mkState (objs st) (db st) (cache st) (trace st ++ [AuthFetch "alice"]) in
  get_authorised_form_list E "alice" st = (Raise e, st1)
  ∧ get_auth_applications_and_count E "alice" (PInt 1) (PStr "10") PNone PNone PNone PNone
      PNone (PInt 2) PNone PNone PNone PNone st = (Raise e, st1)
  ∧ get_all_application_count E "alice" (PInt 1) (PStr "10") st = (Raise e, st1)
  ∧ get_auth_by_application_id E (PInt 2) "alice" st = (Raise e, st1)
  ∧ (get_authorised_form_list E "alice" st1).1
    = Ok (PList [PDict {[ "formName" := PStr "Leave request" ]}])
  ∧ trace (get_authorised_form_list E "alice" st1).2
    = trace st ++ [AuthFetch "alice"; AuthFetch "alice"].
Proof.
  intros E st e st1.
  apply (provider_failure_is_not_memoized E "alice" st (PInt 1) (PStr "10") (PInt 2)
           PNone PNone PNone PNone PNone PNone PNone PNone PNone I I I e); reflexivity.
Defined.

Lemma authorised_lookup_of_missing_application_witness :
  let st := Demo.state0 ∅ Demo.rows in
  let st1 := (get_authorised_form_list Demo.env "alice" st).2 in
  get_auth_by_application_id Demo.env (PInt 99) "alice" st
  = (Ok (PTuple [PDict ∅; PStatus OK]),
     mkState (objs st1) (db st1) (cache st1)
       (trace st1 ++ [DbFind "find_id_by_form_names"
                        [ ("form_names", PList [PStr "Leave request"]);
                          ("application_id", PInt 99) ]])).
Proof.
  intros st st1.
  apply (authorised_lookup_of_missing_application Demo.env "alice" st st1 (PInt 99)
           (PList [PDict {[ "formName" := PStr "Leave request" ]}]) [PStr "Leave request"]);
    reflexivity.
Defined.

(** ** The cache: how long an answer is kept *)

Lemma look_up_each_cons E u us st :
  look_up_each E (u :: us) st = look_up_each E us (get_authorised_form_list E u st).2.
Proof. reflexivity. Qed.

Lemma look_up_each_snoc E us u st :
  look_up_each E (us ++ [u]) st = (get_authorised_form_list E u (look_up_each E us st)).2.
Proof. unfold look_up_each. by rewrite foldl_app. Qed.

Lemma look_up_each_retains E t v us : ∀ st,
  cache_ok (cache st) →
  retained t v (list_to_set (filter (λ u, u ≠ t) us)) (cache st) →
  cache_ok (cache (look_up_each E us st))
  ∧ cache_get t (cache (look_up_each E us st)) = Some v
  ∧ filter (is_fetch t) (trace (look_up_each E us st)) = filter (is_fetch t) (trace st).
Proof.
  induction us as [|u us IH]; intros st Hok Hret.
  - simpl. split; [done|]. split; [|done]. by eapply retained_NoDup; [apply Hok|].
  - rewrite look_up_each_cons.
    destruct (get_authorised_form_list E u st) as [x st1] eqn:Hlookup. cbn [snd].
    destruct (decide (u = t)) as [->|Hne].
    + rewrite filter_cons_False in Hret by (intros ?; done).
      destruct (lookup_hit_retains E t v _ st x st1 Hok Hret Hlookup)
        as (_ & Hok' & Hret' & Htrace).
      destruct (IH st1 Hok' Hret') as (? & ? & Hfetch).
      split; [done|]. split; [done|]. by rewrite Hfetch, Htrace.
    + rewrite filter_cons_True, list_to_set_cons in Hret by done.
      destruct (lookup_retains E t v _ u st x st1 Hok Hret Hne Hlookup)
        as (Hok' & Hret' & Htrace).
      destruct (IH st1 Hok' Hret') as (? & ? & Hfetch).
      split; [done|]. split; [done|]. by rewrite Hfetch, Htrace.
Qed.

(** X14.  A cached answer is not refreshed, whatever it is.  Once the
    lookup of [t] has returned [v], then after lookups of any
    credentials, fewer than 32 of them other than [t], the cache still
    holds [v] for [t], the provider has not been asked about [t] again,
    and a lookup of [t] returns [v], whatever the provider would answer
    by now. *)
Theorem cached_answer_is_not_refreshed (E : Env) (t : string) (st0 st : State) (v : pyval)
    (us : list string) :
  cache_ok (cache st0) →
  get_authorised_form_list E t st0 = (Ok v, st) →
  (size (list_to_set (C := gset string) (filter (λ u, u ≠ t) us)) < 32)%nat →
  let st' := look_up_each E us st in
  cache_get t (cache st') = Some v
  ∧ filter (is_fetch t) (trace st') = filter (is_fetch t) (trace st)
  ∧ get_authorised_form_list E t st'
    = (Ok v, mkState (objs st') (db st') ((t, v) :: cache_remove t (cache st')) (trace st')).
Proof.
  intros Hok Hfirst Hsize st'. subst st'.
  destruct (lookup_first E t st0 v st Hok Hfirst) as (Hok' & back & Hc).
  destruct (look_up_each_retains E t v us st Hok') as (_ & Hget & Hfetch).
  { exists [], back. split; [done|].
    eapply Nat.le_lt_trans; [|exact Hsize]. apply subseteq_size. set_solver. }
  split; [done|]. split; [done|].
  by rewrite get_authorised_form_list_eq, Hget.
Qed.

Lemma cache_remove_front u front rest :
  u ∉ front.*1 → cache_remove u (front ++ rest) = front ++ cache_remove u rest.
Proof.
  induction front as [|[k x] front IH]; simpl; [done|].
  intros [Hne Hin]%not_elem_of_cons. destruct (String.eqb_spec k u); [congruence|].
  by rewrite IH.
Qed.

Lemma look_up_each_front E us : ∀ st,
  cache_ok (cache st) →
  NoDup us →
  (length us ≤ 32)%nat →
  (∀ now u, u ∈ us → returns (provider_forms E now u)) →
  cache_ok (cache (look_up_each E us st))
  ∧ ∃ front rest, cache (look_up_each E us st) = front ++ rest ∧ front.*1 = rev us.
Proof.
  induction us as [|u us IH] using rev_ind; intros st Hok Hnd Hlen Hanswers.
  - split; [done|]. by exists [], (cache st).
  - rewrite look_up_each_snoc. rewrite length_app in Hlen. simpl in Hlen.
    apply NoDup_app in Hnd as (Hnd & Hdisj & _).
    destruct (IH st Hok Hnd) as (Hok' & front & rest & Hc & Hfront); [lia| |].
    { intros now w Hw. apply Hanswers. apply elem_of_app. by left. }
    assert (u ∉ front.*1) as Hu.
    { rewrite Hfront. intros Hin. apply list_elem_of_In, in_rev, list_elem_of_In in Hin.
      apply (Hdisj u Hin). apply list_elem_of_here. }
    assert (length front = length us) as Hlf.
    { rewrite <- (length_fmap fst), Hfront. apply length_rev. }
    set (stk := look_up_each E us st) in *.
    rewrite get_authorised_form_list_eq.
    destruct (cache_get u (cache stk)) as [y|] eqn:Hget.
    + cbn [snd cache]. split; [by apply cache_ok_hit|].
      exists ((u, y) :: front), (cache_remove u rest). rewrite Hc, cache_remove_front by done.
      split; [done|]. rewrite fmap_cons, Hfront, rev_unit. done.
    + specialize (Hanswers (length (trace stk)) u).
      destruct (provider_forms E (length (trace stk)) u) as [y|err]; cycle 1.
      { exfalso. apply Hanswers. apply elem_of_app. right. apply list_elem_of_here. }
      cbn [snd cache]. split; [by apply cache_ok_miss|].
      destruct (Nat.leb_spec 32 (length (cache stk))) as [Hfull|Hroom].
      * exists ((u, y) :: front), (removelast rest). rewrite Hc.
        rewrite Hc, length_app in Hfull.
        rewrite removelast_app by (intros ->; simpl in Hfull; lia).
        split; [done|]. rewrite fmap_cons, Hfront, rev_unit. done.
      * exists ((u, y) :: front), rest. rewrite Hc.
        split; [done|]. rewrite fmap_cons, Hfront, rev_unit. done.
Qed.

(** X15.  The bound of 32 is met exactly.  After the lookup of 32
    distinct credentials other than [t], each of which the provider
    answers, the cache holds exactly these credentials, the latest
    first, whatever it held before; [t] is no longer in it, and the
    next lookup of [t] asks the provider. *)
Theorem thirty_two_others_evict (E : Env) (t : string) (us : list string) (st : State) :
  cache_ok (cache st) →
  NoDup us →
  length us = 32%nat →
  t ∉ us →
  (∀ now u, u ∈ us → returns (provider_forms E now u)) →
  let st' := look_up_each E us st in
  (cache st').*1 = rev us
  ∧ cache_get t (cache st') = None
  ∧ (get_authorised_form_list E t st').1 = provider_forms E (length (trace st')) t
  ∧ trace (get_authorised_form_list E t st').2 = trace st' ++ [AuthFetch t].
Proof.
  intros Hok Hnd Hlen Ht Hanswers st'. subst st'.
  destruct (look_up_each_front E us st Hok Hnd) as ([_ Hsize] & front & rest & Hc & Hfront);
    [lia|done|].
  assert (rest = []) as ->.
  { assert (length front = 32%nat) as Hlf.
    { rewrite <- (length_fmap fst), Hfront, length_rev. done. }
    rewrite Hc, length_app in Hsize. destruct rest; [done|]. simpl in Hsize. lia. }
  rewrite app_nil_r in Hc.
  assert (cache_get t (cache (look_up_each E us st)) = None) as Hget.
  { apply cache_get_None. rewrite Hc, Hfront. intros Hin.
    apply list_elem_of_In, in_rev, list_elem_of_In in Hin. done. }
  split; [by rewrite Hc|]. split; [done|].
  rewrite get_authorised_form_list_eq, Hget.
  by destruct (provider_forms E (length (trace (look_up_each E us st))) t).
Qed.

Lemma cached_answer_is_not_refreshed_witness :
  let E := Demo.world Demo.revoked in
  let st0 := Demo.state0 ∅ Demo.rows in
  let st := (get_authorised_form_list E "alice" st0).2 in
  let v := PList [PDict {[ "formName" := PStr "Leave request" ]}] in
  let st' := look_up_each E ["bob"; "alice"; "carol"; "bob"]%string st in
  cache_get "alice" (cache st') = Some v
  ∧ filter (is_fetch "alice") (trace st') = filter (is_fetch "alice") (trace st)
  ∧ get_authorised_form_list E "alice" st'
    = (Ok v, mkState (objs st') (db st') (("alice", v) :: cache_remove "alice" (cache st'))
               (trace st')).
Proof.
  intros E st0 st v st'.
  apply (cached_answer_is_not_refreshed E "alice" st0 st v ["bob"; "alice"; "carol"; "bob"]%string).
  - split; [constructor|simpl; lia].
  - reflexivity.
  - apply Nat.ltb_lt. vm_compute. reflexivity.
Defined.

Lemma demo_provider_answers now u : returns (Demo.provider now u).
Proof. unfold Demo.provider. repeat case_match; exact I. Qed.

Lemma thirty_two_others_evict_witness :
  let st := (get_authorised_form_list Demo.env "alice" (Demo.state0 ∅ Demo.rows)).2 in
  let st' := look_up_each Demo.env (Demo.tokens 32) st in
  (cache st').*1 = rev (Demo.tokens 32)
  ∧ cache_get "alice" (cache st') = None
  ∧ (get_authorised_form_list Demo.env "alice" st').1
    = Demo.provider (length (trace st')) "alice"
  ∧ trace (get_authorised_form_list Demo.env "alice" st').2 = trace st' ++ [AuthFetch "alice"].
Proof.
  intros st st'.
  apply (thirty_two_others_evict Demo.env "alice" (Demo.tokens 32) st).
  - split; [apply (bool_decide_unpack _); vm_compute; reflexivity|simpl; lia].
  - apply (bool_decide_unpack _). vm_compute. reflexivity.
  - vm_compute. reflexivity.
  - apply (bool_decide_unpack _). vm_compute. reflexivity.
  - intros now u _. apply demo_provider_answers.
Defined.

(** ** The form names of an authorisation *)

(** X16.  The loop that collects the form names ends without an
    exception exactly when every item has a [formName]; the names are
    then appended in the order of the items, one per item, duplicates
    included. *)
Theorem append_form_names_in_order (items : list pyval) :
  ∀ form_names out,
    append_form_names items form_names = Ok out
    ↔ ∃ names, out = form_names ++ names
        ∧ Forall2 (λ item name, Py.getitem item "formName" = Ok name) items names.
Proof.
  induction items as [|item items IH]; intros form_names out; simpl.
  - split.
    + intros [= <-]. exists []. by rewrite app_nil_r.
    + intros (names & -> & Hall). apply Forall2_nil_inv_l in Hall as ->.
      by rewrite app_nil_r.
  - destruct (Py.getitem item "formName") as [name|e] eqn:Hitem; simpl.
    + rewrite IH. split.
      * intros (names & -> & Hall). exists (name :: names). rewrite <- app_assoc.
        split; [done|]. by constructor.
      * intros (names & -> & Hall). apply Forall2_cons_inv_l in Hall
          as (name' & names' & Hname & Hall & ->).
        rewrite Hitem in Hname. injection Hname as <-.
        exists names'. by rewrite <- app_assoc.
    + split; [done|]. intros (names & _ & Hall).
      apply Forall2_cons_inv_l in Hall as (name' & names' & Hname & _).
      by rewrite Hitem in Hname.
Qed.

(** X17.  The loop that collects the form names raises exactly when
    some item has no [formName] to read, and the exception is that of
    the first such item. *)
Theorem append_form_names_first_failure (items : list pyval) :
  ∀ form_names e,
    append_form_names items form_names = Raise e
    ↔ ∃ pre item post, items = pre ++ item :: post
        ∧ Forall (λ item, returns (Py.getitem item "formName")) pre
        ∧ Py.getitem item "formName" = Raise e.
Proof.
  induction items as [|item items IH]; intros form_names e; simpl.
  - split; [done|]. intros (pre & item & post & Heq & _). by destruct pre.
  - destruct (Py.getitem item "formName") as [name|e'] eqn:Hitem; simpl.
    + rewrite IH. split.
      * intros (pre & bad & post & -> & Hpre & Hbad). exists (item :: pre), bad, post.
        split; [done|]. split; [|done]. constructor; [by rewrite Hitem|done].
      * intros (pre & bad & post & Heq & Hpre & Hbad). destruct pre as [|first pre].
        -- simpl in Heq. injection Heq as <- <-. by rewrite Hitem in Hbad.
        -- simpl in Heq. injection Heq as <- ->. apply Forall_cons in Hpre as [_ Hpre].
           by exists pre, bad, post.
    + split.
      * intros [= <-]. exists [], item, items. by repeat split.
      * intros (pre & bad & post & Heq & Hpre & Hbad). destruct pre as [|first pre].
        -- simpl in Heq. injection Heq as <- <-. rewrite Hitem in Hbad. by injection Hbad as <-.
        -- simpl in Heq. injection Heq as <- ->. apply Forall_cons in Hpre as [Hfirst _].
           by rewrite Hitem in Hfirst.
Qed.

(** ** Operations on one application *)

Section One.
Context (E : Env) (F : Finders) (st : State) (application_id user_id : pyval).

(** X18.  The operations on one application answer an application that
    is not found in four ways: [get_application] returns the dump of
    [None], [get_application_by_user] the dump of the empty list with
    [FORBIDDEN], and [update_application] and
    [get_application_form_mapper_by_id] raise the business exception
    ["Invalid application"] with [BAD_REQUEST].  In each case the one
    call made is the find, and nothing is written. *)
Theorem missing_application_answers (data : nat) :
  let after ev := mkState (objs st) (db st) (cache st) (trace st ++ [ev]) in
  let invalid := Exn (BusinessException BAD_REQUEST) "Invalid application" in
  (q_find_by_id F (db st) [ ("application_id", application_id) ] = Ok None →
     get_application E F application_id st
     = (Ok (ApplicationSchema_dump E None),
        after (DbFind "find_by_id" [ ("application_id", application_id) ]))
     ∧ update_application E F application_id data st
       = (Raise invalid, after (DbFind "find_by_id" [ ("application_id", application_id) ])))
  ∧ (q_find_id_by_user F (db st)
       [ ("application_id", application_id); ("user_id", user_id) ] = Ok None →
       get_application_by_user E F application_id user_id st
       = (Ok (PTuple [ApplicationSchema_dump_list_object []; PStatus FORBIDDEN]),
          after (DbFind "find_id_by_user"
                   [ ("application_id", application_id); ("user_id", user_id) ])))
  ∧ (q_find_by_application_id F (db st) [ ("application_id", application_id) ] = Ok None →
       get_application_form_mapper_by_id F application_id st
       = (Raise invalid,
          after (DbFind "find_by_application_id" [ ("application_id", application_id) ]))).
Proof.
  intros after invalid. split; [|split].
  - intros Hfind. split.
    + unfold get_application, Application_find_by_id.
      erewrite bind_ok; [|rewrite query_eq, Hfind; reflexivity]. reflexivity.
    + unfold update_application, Application_find_by_id.
      erewrite bind_ok; [|rewrite query_eq, Hfind; reflexivity]. reflexivity.
  - intros Hfind. unfold get_application_by_user, Application_find_id_by_user.
    erewrite bind_ok; [|rewrite query_eq, Hfind; reflexivity]. reflexivity.
  - intros Hfind. unfold get_application_form_mapper_by_id,
      FormProcessMapper_find_by_application_id.
    erewrite bind_ok; [|rewrite query_eq, Hfind; reflexivity]. reflexivity.
Qed.

(** X19.  [update_application] on an application that is found returns
    [None], makes the find and then one update of that application with
    the caller's map as it is, and leaves the caller's map unchanged.
    The table keeps its length, the row written keeps the identifier,
    and the rows of other identifiers stay. *)
Theorem update_application_writes_fields (data : nat) (d : dict) (application : Application.t) :
  objs st !! data = Some d →
  q_find_by_id F (db st) [ ("application_id", application_id) ] = Ok (Some application) →
  let written := assign d (utcnow E (S (length (trace st)))) application in
  update_application E F application_id data st
  = (Ok PNone,
     mkState (objs st) (replace_row written (db st)) (cache st)
       (trace st ++ [ DbFind "find_by_id" [ ("application_id", application_id) ];
                      DbUpdate (Application.id application) d ]))
  ∧ length (replace_row written (db st)) = length (db st)
  ∧ Application.id written = Application.id application
  ∧ (∀ row, row ∈ db st → Application.id row ≠ Application.id application →
       row ∈ replace_row written (db st)).
Proof.
  intros Hd Hfind written. split; [|split; [|split]].
  - unfold update_application, Application_find_by_id.
    erewrite bind_ok; [|rewrite query_eq, Hfind; reflexivity]. cbv beta iota.
    erewrite bind_ok; [|apply deref_eq; exact Hd].
    erewrite bind_ok; [|apply update_eq]. cbn [objs db cache trace]. unfold ret.
    rewrite length_app. simpl.
    replace (length (trace st) + 1)%nat with (S (length (trace st))) by lia.
    by rewrite <- app_assoc.
  - unfold replace_row. by rewrite length_fmap.
  - reflexivity.
  - intros row Hin Hne. unfold replace_row. apply list_elem_of_fmap.
    exists row. split; [|done].
    destruct (Z.eqb_spec (Application.id row) (Application.id written)) as [Heq|]; [|done].
    by destruct Hne.
Qed.

End One.

(** Nobody has the application 99. *)
Lemma missing_application_answers_witness :
  let st := Demo.state0 {[ "application_status" := PStr "Completed" ]} Demo.rows in
  let after ev := mkState (objs st) (db st) (cache st) (trace st ++ [ev]) in
  let invalid := Exn (BusinessException BAD_REQUEST) "Invalid application" in
  (get_application Demo.env Demo.finders (PInt 99) st
   = (Ok (PDict ∅), after (DbFind "find_by_id" [ ("application_id", PInt 99) ]))
   ∧ update_application Demo.env Demo.finders (PInt 99) 0 st
     = (Raise invalid, after (DbFind "find_by_id" [ ("application_id", PInt 99) ])))
  ∧ get_application_by_user Demo.env Demo.finders (PInt 99) (PStr "dana") st
    = (Ok (PTuple [PDict ∅; PStatus FORBIDDEN]),
       after (DbFind "find_id_by_user"
                [ ("application_id", PInt 99); ("user_id", PStr "dana") ]))
  ∧ get_application_form_mapper_by_id Demo.finders (PInt 99) st
    = (Raise invalid, after (DbFind "find_by_application_id" [ ("application_id", PInt 99) ])).
Proof.
  intros st after invalid.
  destruct (missing_application_answers Demo.env Demo.finders st (PInt 99) (PStr "dana") 0%nat)
    as (Hid & Huser & Hmapper).
  split; [exact (Hid eq_refl)|]. split; [exact (Huser eq_refl)|exact (Hmapper eq_refl)].
Defined.

Lemma update_application_writes_fields_witness :
  let d : dict := {[ "application_status" := PStr "Completed" ]} in
  let st := Demo.state0 d Demo.rows in
  let application := Demo.row 1 "Leave request" "new" "http://host/form/f1/submission/s1"
                       "dana" 10 in
  let written := assign d (utcnow Demo.env (S (length (trace st)))) application in
  update_application Demo.env Demo.finders (PInt 1) 0 st
  = (Ok PNone,
     mkState (objs st) (replace_row written (db st)) (cache st)
       (trace st ++ [ DbFind "find_by_id" [ ("application_id", PInt 1) ];
                      DbUpdate (Application.id application) d ]))
  ∧ length (replace_row written (db st)) = length (db st)
  ∧ Application.id written = Application.id application
  ∧ (∀ row, row ∈ db st → Application.id row ≠ Application.id application →
       row ∈ replace_row written (db st)).
Proof.
  intros d st application written.
  apply (update_application_writes_fields Demo.env Demo.finders st (PInt 1) 0%nat d application
           eq_refl eq_refl).
Defined.

(** ** The coercions, applied twice *)

Lemma coerce_int_fixed v v' : coerce_int v = Ok v' → coerce_int v' = Ok v'.
Proof.
  unfold coerce_int at 1. destruct (Py.truthy v) eqn:Hv.
  - destruct v as [|b|z|s| | | |status|]; simpl; try done.
    + intros [= <-]. apply coerce_int_int.
    + intros [= <-]. apply coerce_int_int.
    + destruct (Py.parse_int s); [|done]. intros [= <-]. apply coerce_int_int.
    + intros [= <-]. apply coerce_int_int.
  - intros [= <-]. by apply coerce_int_falsy.
Qed.

Lemma coerce_str_fixed E v : coerce_str E (coerce_str E v) = coerce_str E v.
Proof.
  destruct (Py.truthy v) eqn:Hv; [|by rewrite !(coerce_str_falsy E v Hv)].
  unfold coerce_str at 2 3. rewrite Hv. destruct v; apply coerce_str_str.
Qed.

Section Twice.
Context (E : Env) (token : string) (st : State).
Context (user_id form_id created_from created_to modified_from modified_to : pyval).
Context (order_by sort_order created_by application_status application_name : pyval).

(** X20.  The coercions are idempotent: a listing operation called with
    inputs that were coerced already runs as it does on the original
    inputs.  (A string such as ["0"] is coerced to the integer 0, which
    a second coercion leaves alone.) *)
Theorem coerced_inputs_are_fixed (page_no limit application_id p l a : pyval) :
  coerce_int page_no = Ok p →
  coerce_int limit = Ok l →
  coerce_int application_id = Ok a →
  get_auth_applications_and_count E token page_no limit order_by created_from created_to
    modified_from modified_to application_id application_name application_status created_by
    sort_order st
  = get_auth_applications_and_count E token p l (coerce_str E order_by) created_from created_to
      modified_from modified_to a (coerce_str E application_name)
      (coerce_str E application_status) (coerce_str E created_by) (coerce_str E sort_order) st
  ∧ get_all_applications_by_user E user_id page_no limit order_by sort_order created_from
      created_to modified_from modified_to created_by application_status application_name
      application_id st
    = get_all_applications_by_user E user_id p l (coerce_str E order_by)
        (coerce_str E sort_order) created_from created_to modified_from modified_to
        (coerce_str E created_by) (coerce_str E application_status)
        (coerce_str E application_name) a st
  ∧ get_all_application_count E token page_no limit st
    = get_all_application_count E token p l st
  ∧ get_all_applications E page_no limit st = get_all_applications E p l st
  ∧ get_all_application_by_user_group E page_no limit user_id st
    = get_all_application_by_user_group E p l user_id st
  ∧ get_all_applications_form_id E form_id page_no limit st
    = get_all_applications_form_id E form_id p l st
  ∧ get_all_applications_form_id_user E form_id user_id page_no limit st
    = get_all_applications_form_id_user E form_id user_id p l st.
Proof.
  intros Hp Hl Ha.
  pose proof (coerce_int_fixed _ _ Hp) as Hp'. pose proof (coerce_int_fixed _ _ Hl) as Hl'.
  pose proof (coerce_int_fixed _ _ Ha) as Ha'.
  unfold get_auth_applications_and_count, get_all_application_count, get_all_applications,
    get_all_applications_by_user, get_all_application_by_user_group,
    get_all_applications_form_id, get_all_applications_form_id_user.
  rewrite !coerce_str_fixed.
  repeat split;
    rewrite ?(lift_ok _ _ _ _ Hp), ?(lift_ok _ _ _ _ Hp');
    rewrite ?(lift_ok _ _ _ _ Hl), ?(lift_ok _ _ _ _ Hl');
    rewrite ?(lift_ok _ _ _ _ Ha), ?(lift_ok _ _ _ _ Ha'); reflexivity.
Qed.

End Twice.

Lemma coerced_inputs_are_fixed_witness :
  let st := Demo.state0 ∅ Demo.rows in
  get_auth_applications_and_count Demo.env "alice" (PStr "1") (PStr " 2 ") (PInt 7) PNone
    PNone PNone PNone (PStr "0") PNone (PInt 5) PNone PNone st
  = get_auth_applications_and_count Demo.env "alice" (PInt 1) (PInt 2) (PStr "7") PNone
      PNone PNone PNone (PInt 0) PNone (PStr "5") PNone PNone st
  ∧ get_all_applications_by_user Demo.env (PStr "dana") (PStr "1") (PStr " 2 ") (PInt 7)
      PNone PNone PNone PNone PNone PNone (PInt 5) PNone (PStr "0") st
    = get_all_applications_by_user Demo.env (PStr "dana") (PInt 1) (PInt 2) (PStr "7")
        PNone PNone PNone PNone PNone PNone (PStr "5") PNone (PInt 0) st
  ∧ get_all_application_count Demo.env "alice" (PStr "1") (PStr " 2 ") st
    = get_all_application_count Demo.env "alice" (PInt 1) (PInt 2) st
  ∧ get_all_applications Demo.env (PStr "1") (PStr " 2 ") st
    = get_all_applications Demo.env (PInt 1) (PInt 2) st
  ∧ get_all_application_by_user_group Demo.env (PStr "1") (PStr " 2 ") (PStr "dana") st
    = get_all_application_by_user_group Demo.env (PInt 1) (PInt 2) (PStr "dana") st
  ∧ get_all_applications_form_id Demo.env (PInt 1) (PStr "1") (PStr " 2 ") st
    = get_all_applications_form_id Demo.env (PInt 1) (PInt 1) (PInt 2) st
  ∧ get_all_applications_form_id_user Demo.env (PInt 1) (PStr "dana") (PStr "1") (PStr " 2 ") st
    = get_all_applications_form_id_user Demo.env (PInt 1) (PStr "dana") (PInt 1) (PInt 2) st.
Proof.
  intros st.
  apply (coerced_inputs_are_fixed Demo.env "alice" st (PStr "dana") (PInt 1) PNone PNone PNone
           PNone (PInt 7) PNone PNone (PInt 5) PNone (PStr "1") (PStr " 2 ") (PStr "0")
           (PInt 1) (PInt 2) (PInt 0) eq_refl eq_refl eq_refl).
Defined.

(** ** Reads do not write *)

Ltac plain_read :=
  unfold only_finds, bind, lift;
  repeat match goal with
    | |- context [coerce_int ?v] => destruct (coerce_int v)
    end;
  try (repeat split; auto; fail);
  rewrite query_eq;
  match goal with
  | |- context [match ?q (db _) ?args with _ => _ end] =>
      destruct (q (db _) args) as [found|err]; [try destruct found|]
  end;
  cbn [snd objs db cache trace]; repeat split; eauto.

Section Reads.
Context (E : Env) (F : Finders) (st : State).
Context (page_no limit user_id form_id application_id : pyval).
Context (order_by sort_order created_from created_to modified_from modified_to created_by
         application_status application_name : pyval).

(** X21.  The listings that take no credential and the reads of one
    application change nothing but the trace, on every path: the
    objects, the table and the authorisation cache are as before, and
    the trace gains at most one call, a find on the repository. *)
Theorem plain_reads_only_find :
  only_finds st (get_all_applications E page_no limit st).2
  ∧ only_finds st
      (get_all_applications_by_user E user_id page_no limit order_by sort_order created_from
         created_to modified_from modified_to created_by application_status application_name
         application_id st).2
  ∧ only_finds st (get_all_application_by_user_group E page_no limit user_id st).2
  ∧ only_finds st (get_all_applications_form_id E form_id page_no limit st).2
  ∧ only_finds st (get_all_applications_form_id_user E form_id user_id page_no limit st).2
  ∧ only_finds st (get_application E F application_id st).2
  ∧ only_finds st (get_application_by_user E F application_id user_id st).2
  ∧ only_finds st (get_application_form_mapper_by_id F application_id st).2.
Proof.
  split; [|split; [|split; [|split; [|split; [|split; [|split]]]]]].
  - unfold get_all_applications, Application_find_all. plain_read.
  - unfold get_all_applications_by_user, Application_find_all_by_user. plain_read.
  - unfold get_all_application_by_user_group, Application_find_all_by_user_group. plain_read.
  - unfold get_all_applications_form_id, Application_find_by_form_id. plain_read.
  - unfold get_all_applications_form_id_user, Application_find_by_form_id_user. plain_read.
  - unfold get_application, Application_find_by_id. plain_read.
  - unfold get_application_by_user, Application_find_id_by_user. plain_read.
  - unfold get_application_form_mapper_by_id, FormProcessMapper_find_by_application_id.
    plain_read.
Qed.

End Reads.

(** Past the coercions, a scoped read is the lookup of the credential
    followed by a continuation that is a plain read. *)
Lemma perform_lookup_then_find E op :
  coercible op →
  ∃ k : pyval → M pyval,
    (∀ st, perform E op st = bind (get_authorised_form_list E (credential op)) k st)
    ∧ (∀ v st, only_finds st (k v st).2)
    ∧ (∀ v st, Py.truthy v = false → k v st = (Ok (fail_closed op), st)).
Proof.
  destruct op as [token page_no limit order_by created_from created_to modified_from
                    modified_to application_id application_name application_status
                    created_by sort_order
                 | token page_no limit
                 | application_id token]; simpl.
  - intros (Hp & Hl & Ha).
    destruct (coerce_int page_no) as [page_no'|] eqn:Hp'; [|done].
    destruct (coerce_int limit) as [limit'|] eqn:Hl'; [|done].
    destruct (coerce_int application_id) as [application_id'|] eqn:Ha'; [|done].
    eexists. split; [|split].
    + intros st. unfold get_auth_applications_and_count.
      rewrite (lift_ok _ _ _ _ Hp'), (lift_ok _ _ _ _ Hl'), (lift_ok _ _ _ _ Ha').
      reflexivity.
    + intros v st. cbv beta. unfold only_finds. destruct (Py.truthy v); cycle 1.
      { unfold ret. cbn [snd]. by repeat split; auto. }
      unfold bind at 1, collect_form_names, lift.
      destruct (res_bind (Py.iter v) _) as [form_names|err]; cycle 1.
      { cbn [snd]. by repeat split; auto. }
      unfold bind, Application_find_by_form_names. rewrite query_eq.
      destruct (q_find_by_form_names E _ _) as [[applications total]|err];
        cbn [snd objs db cache trace]; repeat split; eauto.
    + intros v st Hv. cbv beta. by rewrite Hv.
  - intros (Hp & Hl).
    destruct (coerce_int page_no) as [page_no'|] eqn:Hp'; [|done].
    destruct (coerce_int limit) as [limit'|] eqn:Hl'; [|done].
    eexists. split; [|split].
    + intros st. unfold get_all_application_count.
      rewrite (lift_ok _ _ _ _ Hp'), (lift_ok _ _ _ _ Hl'). reflexivity.
    + intros v st. cbv beta. unfold only_finds. destruct (Py.truthy v); cycle 1.
      { unfold ret. cbn [snd]. by repeat split; auto. }
      unfold bind at 1, collect_form_names, lift.
      destruct (res_bind (Py.iter v) _) as [form_names|err]; cycle 1.
      { cbn [snd]. by repeat split; auto. }
      unfold bind, Application_find_all_applications. rewrite query_eq.
      destruct (q_find_all_applications E _ _) as [applications|err];
        cbn [snd objs db cache trace]; repeat split; eauto.
    + intros v st Hv. cbv beta. by rewrite Hv.
  - intros _. eexists. split; [|split].
    + intros st. reflexivity.
    + intros v st. cbv beta. unfold only_finds. destruct (Py.truthy v); cycle 1.
      { unfold ret. cbn [snd]. by repeat split; auto. }
      unfold bind at 1, collect_form_names, lift.
      destruct (res_bind (Py.iter v) _) as [form_names|err]; cycle 1.
      { cbn [snd]. by repeat split; auto. }
      unfold bind, Application_find_id_by_form_names. rewrite query_eq.
      destruct (q_find_id_by_form_names E _ _) as [application|err];
        cbn [snd objs db cache trace]; repeat split; eauto.
    + intros v st Hv. cbv beta. by rewrite Hv.
Qed.

(** X22.  The three scoped reads do not write.  On every path the
    objects and the table are as before; the calls made are at most one
    fetch from the provider, for the credential of the request and only
    when that credential is not in the cache, followed by at most one
    find, which is made only under a truthy authorisation, the one the
    cache then holds. *)
Theorem scoped_reads_do_not_write (E : Env) (op : auth_read) (st : State) :
  let st' := (perform E op st).2 in
  objs st' = objs st
  ∧ db st' = db st
  ∧ ∃ new, trace st' = trace st ++ new
      ∧ filter is_write new = []
      ∧ filter is_bpm new = []
      ∧ (length (filter is_find new) ≤ 1)%nat
      ∧ (filter is_any_fetch new = []
         ∨ (filter is_any_fetch new = [AuthFetch (credential op)]
            ∧ cache_get (credential op) (cache st) = None))
      ∧ (filter is_find new ≠ [] →
           ∃ v, cache_get (credential op) (cache st') = Some v ∧ Py.truthy v = true).
Proof.
  intros st'. subst st'.
  destruct (perform_rejected E op) as [Hop|(_ & e & Hraise)]; cycle 1.
  { rewrite Hraise. cbn [snd]. split; [done|]. split; [done|]. exists [].
    rewrite app_nil_r. repeat split; auto. by intros []. }
  destruct (perform_lookup_then_find E op Hop) as (k & -> & Hk & Hfalsy).
  unfold bind. rewrite get_authorised_form_list_eq.
  assert (∀ v st1 operation args,
            trace (k v st1).2 = trace st1 ++ [DbFind operation args] → Py.truthy v = true)
    as Htruthy.
  { intros v st1 operation args Htr. destruct (Py.truthy v) eqn:Hv; [done|].
    rewrite (Hfalsy v st1 Hv) in Htr. cbn [snd] in Htr.
    apply (f_equal length) in Htr. rewrite length_app in Htr. simpl in Htr. lia. }
  destruct (cache_get (credential op) (cache st)) as [v|] eqn:Hget.
  - set (st1 := mkState _ _ _ _).
    pose proof (Hk v st1) as (Hobjs & Hdb & Hcache & Htrace).
    rewrite Hobjs, Hdb. split; [done|]. split; [done|].
    destruct Htrace as [Htr|(operation & args & Htr)];
      [|pose proof (Htruthy _ _ _ _ Htr) as Hv]; rewrite Htr; subst st1; cbn [trace].
    + exists []. rewrite app_nil_r. repeat split; auto. by intros [].
    + eexists [_]. split; [done|]. split; [done|]. split; [done|]. split; [simpl; lia|].
      split; [by left|]. intros _. exists v. rewrite Hcache. cbn [cache].
      split; [apply cache_get_head|done].
  - destruct (provider_forms E (length (trace st)) (credential op)) as [v|err]; cycle 1.
    { cbn [snd objs db trace]. split; [done|]. split; [done|]. eexists [_].
      split; [done|]. split; [done|]. split; [done|]. split; [simpl; lia|].
      split; [by right|]. simpl. by intros []. }
    set (st1 := mkState _ _ _ _).
    pose proof (Hk v st1) as (Hobjs & Hdb & Hcache & Htrace).
    rewrite Hobjs, Hdb. split; [done|]. split; [done|].
    destruct Htrace as [Htr|(operation & args & Htr)];
      [|pose proof (Htruthy _ _ _ _ Htr) as Hv]; rewrite Htr; subst st1; cbn [trace].
    + eexists [_]. split; [done|]. split; [done|]. split; [done|]. split; [simpl; lia|].
      split; [by right|]. simpl. by intros [].
    + rewrite <- app_assoc. eexists [_; _]. split; [done|]. split; [done|]. split; [done|].
      split; [simpl; lia|]. split; [by right|]. intros _. exists v. rewrite Hcache.
      cbn [cache]. split; [apply cache_get_head|done].
Qed.
